(** * grade-grid-base: schema, row-level security and dashboards

    A shallow embedding of the portal's relational schema and row level
    security policies (the SQL migration), of the statements the dashboards
    send to the store, and of the two dashboard components
    (TeacherDashboard.tsx and the student dashboard of Dashboard.tsx).

    Tables are lists of rows; constraints are checked by the statements that
    write; SQL expressions are evaluated in three-valued logic, and a row
    passes a WHERE, USING or WITH CHECK clause only when the clause is true.
*)

From Stdlib Require Import List String Ascii Bool Arith NArith ZArith Lia Sorted Permutation.
Import ListNotations.
Local Open Scope string_scope.

(** ** SQL values and three-valued logic *)

Definition uuid := string.
Definition text := string.
Definition date := string.
Definition timestamptz := nat.

Module SQL.

(** The value of a boolean SQL expression: true, false or NULL. *)
Inductive tv : Set := TT | FF | UU.

Definition tv_and (a b : tv) : tv :=
  match a, b with
  | FF, _ | _, FF => FF
  | TT, TT => TT
  | _, _ => UU
  end.

Definition tv_or (a b : tv) : tv :=
  match a, b with
  | TT, _ | _, TT => TT
  | FF, FF => FF
  | _, _ => UU
  end.

Definition tv_of_bool (b : bool) : tv := if b then TT else FF.

(** A row is kept by WHERE / ON / USING / WITH CHECK only on true. *)
Definition holds (t : tv) : bool :=
  match t with TT => true | _ => false end.

(** [x = y] on nullable values. *)
Definition sql_eq (x y : option string) : tv :=
  match x, y with
  | Some a, Some b => tv_of_bool (String.eqb a b)
  | _, _ => UU
  end.

(** [x IN (subquery)], the subquery returning one nullable column. *)
Definition sql_in (x : option string) (sub : list (option string)) : tv :=
  fold_right (fun y acc => tv_or (sql_eq x y) acc) FF sub.

Definition coalesce {A : Type} (x y : option A) : option A :=
  match x with Some _ => x | None => y end.

(** [t1 JOIN t2 ON cond]. *)
Definition inner_join {A B : Type} (t1 : list A) (t2 : list B)
    (on : A -> B -> tv) : list (A * B) :=
  flat_map (fun r1 => map (fun r2 => (r1, r2))
                        (filter (fun r2 => holds (on r1 r2)) t2)) t1.

End SQL.
Import SQL.

(** ** Schema *)

(** CREATE TYPE public.user_role AS ENUM ('student', 'teacher') *)
Inductive user_role : Set := student | teacher.

(** CREATE TYPE public.attendance_status AS ENUM ('present', 'absent') *)
Inductive attendance_status : Set := present | absent.

Definition user_role_eqb (a b : user_role) : bool :=
  match a, b with
  | student, student | teacher, teacher => true
  | _, _ => false
  end.

Definition attendance_status_eqb (a b : attendance_status) : bool :=
  match a, b with
  | present, present | absent, absent => true
  | _, _ => false
  end.

(** The cast [text::user_role]; an unknown label raises an error. *)
Definition cast_user_role (s : text) : option user_role :=
  if String.eqb s "student" then Some student
  else if String.eqb s "teacher" then Some teacher
  else None.

(** A row of auth.users, as far as the migration reads it: the identity, the
    nullable contact address and the metadata object.  The object is kept as
    its fields with their values rendered as text, which is what [->>]
    returns; a field that is absent (or JSON null) yields NULL. *)
Module users.
Record row : Set := mk
  { id : uuid;
    email : option text;
    raw_user_meta_data : list (string * text) }.
End users.

Fixpoint json_get_text (o : list (string * text)) (k : string) : option text :=
  match o with
  | [] => None
  | (k', v) :: o' => if String.eqb k' k then Some v else json_get_text o' k
  end.

Module classes.
Record row : Set := mk
  { id : uuid;
    name : text;
    created_at : timestamptz }.
End classes.

Module profiles.
Record row : Set := mk
  { id : uuid;
    name : text;
    role : user_role;
    class_id : option uuid;
    created_at : timestamptz;
    updated_at : timestamptz }.
End profiles.

Module posts.
Record row : Set := mk
  { id : uuid;
    teacher_id : uuid;
    class_id : uuid;
    title : text;
    content : text;
    created_at : timestamptz }.
End posts.

Module attendance.
Record row : Set := mk
  { id : uuid;
    student_id : uuid;
    date : date;
    status : attendance_status;
    created_at : timestamptz }.
End attendance.

(** The database: auth.users and the four tables of schema public. *)
Record db : Set := mkdb
  { auth_users : list users.row;
    public_classes : list classes.row;
    public_profiles : list profiles.row;
    public_posts : list posts.row;
    public_attendance : list attendance.row }.

(** *** Declared constraints *)

Definition mem (x : uuid) (l : list uuid) : bool :=
  existsb (String.eqb x) l.

(** No value twice: what a primary key asks of a column. *)
Fixpoint distinct (l : list uuid) : bool :=
  match l with
  | [] => true
  | x :: l' => negb (mem x l') && distinct l'
  end.

(** PRIMARY KEY of each table. *)
Definition pk_users (d : db) : Prop := NoDup (map users.id (auth_users d)).
Definition pk_classes (d : db) : Prop := NoDup (map classes.id (public_classes d)).
Definition pk_profiles (d : db) : Prop := NoDup (map profiles.id (public_profiles d)).
Definition pk_posts (d : db) : Prop := NoDup (map posts.id (public_posts d)).
Definition pk_attendance (d : db) : Prop :=
  NoDup (map attendance.id (public_attendance d)).

(** UNIQUE(student_id, date) *)
Definition attendance_key (r : attendance.row) : uuid * date :=
  (attendance.student_id r, attendance.date r).

Definition unique_attendance (t : list attendance.row) : Prop :=
  NoDup (map attendance_key t).

(** FOREIGN KEY (id) REFERENCES auth.users(id) *)
Definition fk_profiles_users (d : db) : Prop :=
  forall p, In p (public_profiles d) ->
            In (profiles.id p) (map users.id (auth_users d)).

(** profiles.class_id REFERENCES public.classes(id); NULL references nothing. *)
Definition fk_profiles_class (d : db) : Prop :=
  forall p c, In p (public_profiles d) -> profiles.class_id p = Some c ->
              In c (map classes.id (public_classes d)).

(** posts.teacher_id REFERENCES public.profiles(id) *)
Definition fk_posts_teacher (d : db) : Prop :=
  forall r, In r (public_posts d) ->
            In (posts.teacher_id r) (map profiles.id (public_profiles d)).

(** posts.class_id REFERENCES public.classes(id) *)
Definition fk_posts_class (d : db) : Prop :=
  forall r, In r (public_posts d) ->
            In (posts.class_id r) (map classes.id (public_classes d)).

(** attendance.student_id REFERENCES public.profiles(id) *)
Definition fk_attendance_student (d : db) : Prop :=
  forall r, In r (public_attendance d) ->
            In (attendance.student_id r) (map profiles.id (public_profiles d)).

(** Every constraint the migration declares. *)
Record consistent (d : db) : Prop := mk_consistent
  { c_pk_users : pk_users d;
    c_pk_classes : pk_classes d;
    c_pk_profiles : pk_profiles d;
    c_pk_posts : pk_posts d;
    c_pk_attendance : pk_attendance d;
    c_unique_attendance : unique_attendance (public_attendance d);
    c_fk_profiles_users : fk_profiles_users d;
    c_fk_profiles_class : fk_profiles_class d;
    c_fk_posts_teacher : fk_posts_teacher d;
    c_fk_posts_class : fk_posts_class d;
    c_fk_attendance_student : fk_attendance_student d }.

(** ** Row level security *)

Module RLS.

(** auth.uid(): the caller's identity, NULL for an anonymous session. *)
Definition session := option uuid.

(** "Users can view their own profile": USING (auth.uid() = id) *)
Definition profiles_select (uid : session) (r : profiles.row) : tv :=
  sql_eq uid (Some (profiles.id r)).

(** "Users can update their own profile": USING (auth.uid() = id) *)
Definition profiles_update (uid : session) (r : profiles.row) : tv :=
  sql_eq uid (Some (profiles.id r)).

(** What [FROM public.profiles] denotes for the caller.  Row level security
    is enabled on profiles and a policy's sub-select runs with the caller's
    privileges, so inside the policies of the other tables too the caller
    reads profiles through "Users can view their own profile". *)
Definition from_profiles (d : db) (uid : session) : list profiles.row :=
  filter (fun r => holds (profiles_select uid r)) (public_profiles d).

(** SELECT class_id FROM public.profiles WHERE id = auth.uid() *)
Definition own_class_ids (profs : list profiles.row) (uid : session)
  : list (option uuid) :=
  map profiles.class_id
      (filter (fun p => holds (sql_eq (Some (profiles.id p)) uid)) profs).

(** SELECT class_id FROM public.profiles
    WHERE id = auth.uid() AND role = 'teacher' *)
Definition teacher_class_ids (profs : list profiles.row) (uid : session)
  : list (option uuid) :=
  map profiles.class_id
      (filter (fun p => holds (tv_and (sql_eq (Some (profiles.id p)) uid)
                                      (tv_of_bool (user_role_eqb (profiles.role p) teacher))))
              profs).

(** SELECT p1.id FROM public.profiles p1
    JOIN public.profiles p2 ON p1.class_id = p2.class_id
    WHERE p2.id = auth.uid() AND p2.role = 'teacher' *)
Definition class_roster (profs : list profiles.row) (uid : session)
  : list (option uuid) :=
  map (fun '(p1, _) => Some (profiles.id p1))
      (filter (fun '(_, p2) =>
                 holds (tv_and (sql_eq (Some (profiles.id p2)) uid)
                               (tv_of_bool (user_role_eqb (profiles.role p2) teacher))))
              (inner_join profs profs
                 (fun p1 p2 => sql_eq (profiles.class_id p1) (profiles.class_id p2)))).

(** "Users can view their class" *)
Definition classes_select (d : db) (uid : session) (r : classes.row) : tv :=
  sql_in (Some (classes.id r)) (own_class_ids (from_profiles d uid) uid).

(** "Students can view posts from their class" *)
Definition posts_select (d : db) (uid : session) (r : posts.row) : tv :=
  sql_in (Some (posts.class_id r)) (own_class_ids (from_profiles d uid) uid).

(** "Teachers can create posts for their class": WITH CHECK *)
Definition posts_insert (d : db) (uid : session) (r : posts.row) : tv :=
  tv_and (sql_eq (Some (posts.teacher_id r)) uid)
         (sql_in (Some (posts.class_id r))
                 (teacher_class_ids (from_profiles d uid) uid)).

(** "Teachers can update their own posts": USING, and, no WITH CHECK being
    given, the check of the new row as well. *)
Definition posts_update (uid : session) (r : posts.row) : tv :=
  sql_eq (Some (posts.teacher_id r)) uid.

(** "Teachers can delete their own posts" *)
Definition posts_delete (uid : session) (r : posts.row) : tv :=
  sql_eq (Some (posts.teacher_id r)) uid.

(** "Students can view their own attendance" *)
Definition attendance_student (uid : session) (r : attendance.row) : tv :=
  sql_eq (Some (attendance.student_id r)) uid.

(** The expression shared by "Teachers can view attendance for their class
    students", "Teachers can mark attendance for their class students" and
    "Teachers can update attendance for their class students". *)
Definition attendance_teacher (d : db) (uid : session) (r : attendance.row) : tv :=
  sql_in (Some (attendance.student_id r))
         (class_roster (from_profiles d uid) uid).

(** The two permissive SELECT policies of attendance are OR-ed. *)
Definition attendance_select (d : db) (uid : session) (r : attendance.row) : tv :=
  tv_or (attendance_student uid r) (attendance_teacher d uid r).

Definition attendance_insert := attendance_teacher.
Definition attendance_update := attendance_teacher.

End RLS.

(** ** Statements *)

Inductive sql_error : Set :=
| row_security_violation
| not_null_violation
| unique_violation
| foreign_key_violation
| invalid_enum_label.

Inductive result (A : Type) : Type :=
| Ok (a : A)
| Err (e : sql_error).
Arguments Ok {A} a.
Arguments Err {A} e.

Module Store.
Import RLS.

Definition set_auth_users (d : db) (t : list users.row) : db :=
  mkdb t (public_classes d) (public_profiles d) (public_posts d) (public_attendance d).
Definition set_profiles (d : db) (t : list profiles.row) : db :=
  mkdb (auth_users d) (public_classes d) t (public_posts d) (public_attendance d).
Definition set_posts (d : db) (t : list posts.row) : db :=
  mkdb (auth_users d) (public_classes d) (public_profiles d) t (public_attendance d).
Definition set_attendance (d : db) (t : list attendance.row) : db :=
  mkdb (auth_users d) (public_classes d) (public_profiles d) (public_posts d) t.

(** *** Identity bootstrap *)

(** INSERT INTO public.profiles (id, name, role) VALUES (...): name and role
    are NOT NULL, id is the primary key and references auth.users; class_id
    is left NULL and the two timestamps take their default now(). *)
Definition insert_profile (now : timestamptz) (id : uuid) (name : option text)
    (role : option user_role) (d : db) : result db :=
  match name, role with
  | Some n, Some r =>
      if mem id (map profiles.id (public_profiles d)) then Err unique_violation
      else if negb (mem id (map users.id (auth_users d))) then Err foreign_key_violation
      else Ok (set_profiles d
                 (public_profiles d ++ [profiles.mk id n r None now now]))
  | _, _ => Err not_null_violation
  end.

(** [(x)::user_role] on a nullable text: NULL stays NULL. *)
Definition cast_nullable (x : option text) : result (option user_role) :=
  match x with
  | None => Ok None
  | Some label =>
      match cast_user_role label with
      | Some r => Ok (Some r)
      | None => Err invalid_enum_label
      end
  end.

(** public.handle_new_user(), SECURITY DEFINER: it writes profiles as the
    owner, outside row level security. *)
Definition handle_new_user (now : timestamptz) (NEW : users.row) (d : db)
  : result db :=
  match cast_nullable (json_get_text (users.raw_user_meta_data NEW) "role") with
  | Err e => Err e
  | Ok r =>
      insert_profile now (users.id NEW)
        (coalesce (json_get_text (users.raw_user_meta_data NEW) "name")
                  (users.email NEW))
        (coalesce r (Some student))
        d
  end.

(** INSERT INTO auth.users, with the trigger on_auth_user_created (AFTER
    INSERT, FOR EACH ROW).  An error of the trigger aborts the insert. *)
Definition insert_auth_user (now : timestamptz) (NEW : users.row) (d : db)
  : result db :=
  if mem (users.id NEW) (map users.id (auth_users d)) then Err unique_violation
  else handle_new_user now NEW (set_auth_users d (auth_users d ++ [NEW])).

(** *** Identity removal *)

Definition profile_referenced (u : uuid) (d : db) : bool :=
  existsb (fun r => String.eqb (posts.teacher_id r) u) (public_posts d)
  || existsb (fun r => String.eqb (attendance.student_id r) u) (public_attendance d).

(** DELETE FROM auth.users WHERE id = u.  profiles.id is declared ON DELETE
    CASCADE; posts.teacher_id and attendance.student_id reference
    profiles(id) with no action declared, so a profile row that is still
    referenced cannot be removed and the statement fails as a whole. *)
Definition delete_auth_user (u : uuid) (d : db) : result db :=
  if existsb (fun p => String.eqb (profiles.id p) u) (public_profiles d)
     && profile_referenced u d
  then Err foreign_key_violation
  else Ok (mkdb (filter (fun a => negb (String.eqb (users.id a) u)) (auth_users d))
                (public_classes d)
                (filter (fun p => negb (String.eqb (profiles.id p) u)) (public_profiles d))
                (public_posts d)
                (public_attendance d)).

(** *** Posts *)

(** INSERT INTO public.posts (teacher_id, class_id, title, content); id and
    created_at take their defaults gen_random_uuid() and now(). *)
Definition insert_post (uid : session) (fresh : uuid) (now : timestamptz)
    (teacher_id class_id : uuid) (title content : text) (d : db) : result db :=
  let r := posts.mk fresh teacher_id class_id title content now in
  if negb (holds (posts_insert d uid r)) then Err row_security_violation
  else if mem fresh (map posts.id (public_posts d)) then Err unique_violation
  else if negb (mem teacher_id (map profiles.id (public_profiles d))
                && mem class_id (map classes.id (public_classes d)))
       then Err foreign_key_violation
  else Ok (set_posts d (public_posts d ++ [r])).

(** The SET list of an UPDATE of posts: a new value per assigned column.
    No policy and no grant of the migration restricts the columns, id and
    created_at included. *)
Record posts_set : Set := mk_posts_set
  { set_id : option uuid;
    set_teacher_id : option uuid;
    set_class_id : option uuid;
    set_title : option text;
    set_content : option text;
    set_created_at : option timestamptz }.

(** A SET list over teacher_id, class_id, title and content. *)
Definition mk_set (teacher_id class_id : option uuid) (title content : option text)
  : posts_set :=
  mk_posts_set None teacher_id class_id title content None.

Definition assign {A : Type} (new : option A) (old : A) : A :=
  match new with Some v => v | None => old end.

Definition apply_set (s : posts_set) (r : posts.row) : posts.row :=
  posts.mk (assign (set_id s) (posts.id r))
           (assign (set_teacher_id s) (posts.teacher_id r))
           (assign (set_class_id s) (posts.class_id r))
           (assign (set_title s) (posts.title r))
           (assign (set_content s) (posts.content r))
           (assign (set_created_at s) (posts.created_at r)).

(** Whether the caller may act on an existing row [r] of posts with a
    statement governed by [policy].  A statement with a WHERE clause reads
    the row's columns, so the SELECT policy applies too. *)
Definition posts_target (d : db) (uid : session) (policy : session -> posts.row -> tv)
    (where_ : option (posts.row -> bool)) (r : posts.row) : bool :=
  holds (policy uid r)
  && match where_ with
     | None => true
     | Some w => holds (posts_select d uid r) && w r
     end.

(** The checks on a row written by UPDATE: the UPDATE policy (its USING
    expression, no WITH CHECK being declared), the SELECT policy when the
    statement reads columns, and the two foreign keys. *)
Definition posts_new_row_rls (d : db) (uid : session)
    (where_ : option (posts.row -> bool)) (r' : posts.row) : bool :=
  holds (posts_update uid r')
  && match where_ with
     | None => true
     | Some _ => holds (posts_select d uid r')
     end.

Definition posts_fk (d : db) (r : posts.row) : bool :=
  mem (posts.teacher_id r) (map profiles.id (public_profiles d))
  && mem (posts.class_id r) (map classes.id (public_classes d)).

(** UPDATE public.posts SET ... [WHERE ...]: the rows written pass row level
    security, the table keeps its primary key, and the rows written keep the
    two foreign keys. *)
Definition update_posts (uid : session) (s : posts_set)
    (where_ : option (posts.row -> bool)) (d : db) : result db :=
  let hit := filter (posts_target d uid posts_update where_) (public_posts d) in
  let written := map (fun r => if posts_target d uid posts_update where_ r
                               then apply_set s r else r)
                     (public_posts d) in
  if negb (forallb (fun r => posts_new_row_rls d uid where_ (apply_set s r)) hit)
  then Err row_security_violation
  else if negb (distinct (map posts.id written))
  then Err unique_violation
  else if negb (forallb (fun r => posts_fk d (apply_set s r)) hit)
  then Err foreign_key_violation
  else Ok (set_posts d written).

(** DELETE FROM public.posts [WHERE ...] *)
Definition delete_posts (uid : session) (where_ : option (posts.row -> bool))
    (d : db) : result db :=
  Ok (set_posts d
        (filter (fun r => negb (posts_target d uid posts_delete where_ r))
                (public_posts d))).

(** *** Attendance *)

Definition same_key (s : uuid) (dt : date) (r : attendance.row) : bool :=
  String.eqb (attendance.student_id r) s && String.eqb (attendance.date r) dt.

Definition set_status (st : attendance_status) (r : attendance.row) : attendance.row :=
  attendance.mk (attendance.id r) (attendance.student_id r) (attendance.date r)
                st (attendance.created_at r).

(** INSERT ... ON CONFLICT (student_id, date) DO UPDATE on the table: a row
    with the key is rewritten in place, otherwise the proposed row is
    appended. *)
Definition upsert (fresh : uuid) (now : timestamptz) (s : uuid) (dt : date)
    (st : attendance_status) (t : list attendance.row) : list attendance.row :=
  if existsb (same_key s dt) t
  then map (fun r => if same_key s dt r then set_status st r else r) t
  else t ++ [attendance.mk fresh s dt st now].

(** The statement behind supabase.from('attendance').upsert([...],
    {onConflict: 'student_id,date'}), under row level security: the
    proposed row passes the INSERT check; on the conflict path the existing
    row passes the SELECT and UPDATE policies and so does the row written. *)
Definition upsert_attendance (uid : session) (fresh : uuid) (now : timestamptz)
    (s : uuid) (dt : date) (st : attendance_status) (d : db) : result db :=
  let proposed := attendance.mk fresh s dt st now in
  let hit := filter (same_key s dt) (public_attendance d) in
  if negb (holds (attendance_insert d uid proposed)) then Err row_security_violation
  else if negb (forallb (fun e => holds (attendance_select d uid e)
                                  && holds (attendance_update d uid e)
                                  && holds (attendance_update d uid (set_status st e))
                                  && holds (attendance_select d uid (set_status st e)))
                        hit)
  then Err row_security_violation
  else if negb (mem s (map profiles.id (public_profiles d))) then Err foreign_key_violation
  else if match hit with
          | [] => mem fresh (map attendance.id (public_attendance d))
          | _ => false
          end
  then Err unique_violation
  else Ok (set_attendance d (upsert fresh now s dt st (public_attendance d))).

(** *** Profiles *)

(** public.update_updated_at_column(), BEFORE UPDATE ON public.profiles. *)
Definition update_updated_at_column (now : timestamptz) (NEW : profiles.row)
  : profiles.row :=
  profiles.mk (profiles.id NEW) (profiles.name NEW) (profiles.role NEW)
              (profiles.class_id NEW) (profiles.created_at NEW) now.

(** The SET list of an UPDATE of profiles: a new value per assigned column,
    whichever the column; class_id may be set to NULL. *)
Record profiles_set : Set := mk_profiles_set
  { set_profile_id : option uuid;
    set_name : option text;
    set_role : option user_role;
    set_class : option (option uuid);
    set_profile_created_at : option timestamptz;
    set_profile_updated_at : option timestamptz }.

(** A SET list over name, role and class_id. *)
Definition mk_pset (name : option text) (role : option user_role)
    (class_id : option (option uuid)) : profiles_set :=
  mk_profiles_set None name role class_id None None.

Definition apply_pset (s : profiles_set) (r : profiles.row) : profiles.row :=
  profiles.mk (assign (set_profile_id s) (profiles.id r))
              (assign (set_name s) (profiles.name r))
              (assign (set_role s) (profiles.role r))
              (assign (set_class s) (profiles.class_id r))
              (assign (set_profile_created_at s) (profiles.created_at r))
              (assign (set_profile_updated_at s) (profiles.updated_at r)).

Definition profiles_target (uid : session) (where_ : option (profiles.row -> bool))
    (r : profiles.row) : bool :=
  holds (profiles_update uid r)
  && match where_ with
     | None => true
     | Some w => holds (profiles_select uid r) && w r
     end.

Definition profiles_new_row_rls (uid : session)
    (where_ : option (profiles.row -> bool)) (r' : profiles.row) : bool :=
  holds (profiles_update uid r')
  && match where_ with
     | None => true
     | Some _ => holds (profiles_select uid r')
     end.

Definition profiles_fk (d : db) (r : profiles.row) : bool :=
  match profiles.class_id r with
  | None => true
  | Some c => mem c (map classes.id (public_classes d))
  end.

(** UPDATE public.profiles SET ... [WHERE ...]: the row written is the row
    the trigger update_profiles_updated_at returns.  The check of the row
    written (auth.uid() = id) leaves it the id of the row read, which also
    passed it, so that the primary key and the references to and from
    profiles(id) are never at stake; class_id is the one key that can
    break. *)
Definition update_profiles (uid : session) (s : profiles_set)
    (where_ : option (profiles.row -> bool)) (now : timestamptz) (d : db)
  : result db :=
  let hit := filter (profiles_target uid where_) (public_profiles d) in
  let written r := update_updated_at_column now (apply_pset s r) in
  if negb (forallb (fun r => profiles_new_row_rls uid where_ (written r)) hit)
  then Err row_security_violation
  else if negb (forallb (fun r => profiles_fk d (written r)) hit)
  then Err foreign_key_violation
  else Ok (set_profiles d
             (map (fun r => if profiles_target uid where_ r then written r else r)
                  (public_profiles d))).

(** *** Statements in sequence *)

(** The statements above, as the store receives them. *)
Inductive statement : Type :=
| Insert_auth_user (now : timestamptz) (NEW : users.row)
| Delete_auth_user (u : uuid)
| Insert_post (uid : session) (fresh : uuid) (now : timestamptz)
              (teacher_id class_id : uuid) (title content : text)
| Update_posts (uid : session) (s : posts_set) (where_ : option (posts.row -> bool))
| Delete_posts (uid : session) (where_ : option (posts.row -> bool))
| Upsert_attendance (uid : session) (fresh : uuid) (now : timestamptz)
                    (student_id : uuid) (day : date) (status : attendance_status)
| Update_profiles (uid : session) (s : profiles_set)
                  (where_ : option (profiles.row -> bool)) (now : timestamptz).

Definition exec (q : statement) (d : db) : result db :=
  match q with
  | Insert_auth_user now NEW => insert_auth_user now NEW d
  | Delete_auth_user u => delete_auth_user u d
  | Insert_post uid fresh now t c title content =>
      insert_post uid fresh now t c title content d
  | Update_posts uid s where_ => update_posts uid s where_ d
  | Delete_posts uid where_ => delete_posts uid where_ d
  | Upsert_attendance uid fresh now s dt st =>
      upsert_attendance uid fresh now s dt st d
  | Update_profiles uid s where_ now => update_profiles uid s where_ now d
  end.

(** Statements one after the other; one that fails changes nothing. *)
Definition exec_all (qs : list statement) (d : db) : db :=
  fold_left (fun d q => match exec q d with Ok d' => d' | Err _ => d end) qs d.

End Store.

(** ** The store as the dashboards reach it *)

(** What a call of the client library resolves to: [{ data, error }]. *)
Record response (A : Type) : Type := mk_response
  { data : option A;
    error : option text }.
Arguments mk_response {A} data error.
Arguments data {A} r.
Arguments error {A} r.

(** ORDER BY, as an insertion sort on the rows returned. *)
Fixpoint insert_by {A : Type} (le : A -> A -> bool) (x : A) (l : list A) : list A :=
  match l with
  | [] => [x]
  | y :: l' => if le x y then x :: l else y :: insert_by le x l'
  end.

Definition order_by {A : Type} (le : A -> A -> bool) (l : list A) : list A :=
  fold_right (insert_by le) [] l.

(** *** The order of dates

    A DATE reaches the client as text: year, month and day separated by
    dashes, the year of four digits or more, with the suffix BC before the
    common era, or one of infinity and -infinity.  The store orders the
    values, not the text. *)

Definition digit (c : ascii) : option Z :=
  let n := N_of_ascii c in
  if (N.leb 48 n && N.leb n 57)%bool then Some (Z.of_N n - 48)%Z else None.

Fixpoint number_from (acc : Z) (s : string) : option Z :=
  match s with
  | EmptyString => Some acc
  | String c s' =>
      match digit c with
      | Some v => number_from (10 * acc + v)%Z s'
      | None => None
      end
  end.

(** A non-empty run of digits. *)
Definition number (s : string) : option Z :=
  match s with
  | EmptyString => None
  | _ => number_from 0%Z s
  end.

Fixpoint split_on (c : ascii) (s : string) : list string :=
  match s with
  | EmptyString => [EmptyString]
  | String x s' =>
      if Ascii.eqb x c then EmptyString :: split_on c s'
      else match split_on c s' with
           | h :: t => String x h :: t
           | [] => [String x EmptyString]
           end
  end.

(** The text without its suffix BC, and whether it had one. *)
Definition strip_bc (s : string) : string * bool :=
  let n := String.length s in
  if (Nat.leb 3 n && String.eqb (substring (n - 3) 3 s) " BC")%bool
  then (substring 0 (n - 3) s, true)
  else (s, false).

(** Where a date stands: -infinity, a day, or infinity; then year (negative
    before the common era), month and day. *)
Definition date_rank (s : date) : option (Z * Z * Z * Z) :=
  if String.eqb s "infinity" then Some (2, 0, 0, 0)%Z
  else if String.eqb s "-infinity" then Some (0, 0, 0, 0)%Z
  else
    let (body, bc) := strip_bc s in
    match split_on "-"%char body with
    | [y; m; d] =>
        match number y, number m, number d with
        | Some y, Some m, Some d => Some (1, if bc then - y else y, m, d)%Z
        | _, _, _ => None
        end
    | _ => None
    end.

Definition rank_leb (x y : Z * Z * Z * Z) : bool :=
  let '(a1, b1, c1, d1) := x in
  let '(a2, b2, c2, d2) := y in
  ((a1 <? a2) || ((a1 =? a2) &&
   ((b1 <? b2) || ((b1 =? b2) &&
    ((c1 <? c2) || ((c1 =? c2) && (d1 <=? d2)))))))%Z%bool.

(** [a <= b] on dates.  Text that is no date, which the column never holds,
    is put before every date. *)
Definition date_leb (a b : date) : bool :=
  match date_rank a, date_rank b with
  | None, _ => true
  | Some _, None => false
  | Some x, Some y => rank_leb x y
  end.

(** The rows handed to the dashboards, column lists as in their selects. *)
Module Post.
Record t : Set := mk
  { id : uuid; title : text; content : text; created_at : timestamptz }.
End Post.

Module Student.
Record t : Set := mk { id : uuid; name : text }.
End Student.

Module AttendanceRecord.
Record t : Set := mk
  { student_id : uuid; date : date; status : attendance_status }.
End AttendanceRecord.

(** Post with the embedded [profiles:teacher_id (name)]. *)
Module ClassPost.
Record t : Set := mk
  { id : uuid; title : text; content : text; created_at : timestamptz;
    profiles : option text }.
End ClassPost.

Module Attendance.
Record t : Set := mk
  { id : uuid; date : date; status : attendance_status }.
End Attendance.

Inductive request : Set :=
| SelectOwnPosts (teacher_id : uuid)
| SelectStudents (class_id : uuid)
| SelectAttendanceOn (day : date)
| InsertPost (teacher_id class_id : uuid) (title content : text)
| UpsertAttendance (student_id : uuid) (day : date) (status : attendance_status)
| SelectClassPosts
| SelectAttendanceOf (student_id : uuid).

Module Backend.
Import RLS.

Definition error_message (e : sql_error) : text :=
  match e with
  | row_security_violation => "new row violates row-level security policy"
  | not_null_violation => "null value violates not-null constraint"
  | unique_violation => "duplicate key value violates unique constraint"
  | foreign_key_violation => "violates foreign key constraint"
  | invalid_enum_label => "invalid input value for enum"
  end.

(** A call fails in transit ([net = Some e]) or is answered by the store. *)
Definition answer {A : Type} (net : option text) (rows : A) : response A :=
  match net with
  | Some e => mk_response None (Some e)
  | None => mk_response (Some rows) None
  end.

Definition mutate (net : option text) (d : db) (r : result db) : db * response unit :=
  match net with
  | Some e => (d, mk_response None (Some e))
  | None =>
      match r with
      | Ok d' => (d', mk_response None None)
      | Err e => (d, mk_response None (Some (error_message e)))
      end
  end.

(** from('posts').select('id, title, content, created_at')
      .eq('teacher_id', t).order('created_at', { ascending: false }) *)
Definition select_own_posts (d : db) (uid : session) (t : uuid) : list Post.t :=
  map (fun r => Post.mk (posts.id r) (posts.title r) (posts.content r) (posts.created_at r))
      (order_by (fun a b => Nat.leb (posts.created_at b) (posts.created_at a))
         (filter (fun r => holds (posts_select d uid r)
                           && String.eqb (posts.teacher_id r) t)
                 (public_posts d))).

(** from('profiles').select('id, name').eq('class_id', c).eq('role', 'student') *)
Definition select_students (d : db) (uid : session) (c : uuid) : list Student.t :=
  map (fun p => Student.mk (profiles.id p) (profiles.name p))
      (filter (fun p => holds (sql_eq (profiles.class_id p) (Some c))
                        && user_role_eqb (profiles.role p) student)
              (from_profiles d uid)).

(** from('attendance').select('student_id, date, status').eq('date', day) *)
Definition select_attendance_on (d : db) (uid : session) (day : date)
  : list AttendanceRecord.t :=
  map (fun r => AttendanceRecord.mk (attendance.student_id r) (attendance.date r)
                                    (attendance.status r))
      (filter (fun r => holds (attendance_select d uid r)
                        && String.eqb (attendance.date r) day)
              (public_attendance d)).

(** The embedded author: the profile row of teacher_id, read under the
    caller's row level security, NULL when it is not visible. *)
Definition embedded_author (d : db) (uid : session) (t : uuid) : option text :=
  match filter (fun p => String.eqb (profiles.id p) t) (from_profiles d uid) with
  | p :: _ => Some (profiles.name p)
  | [] => None
  end.

(** from('posts').select('id, title, content, created_at,
      profiles:teacher_id (name)').order('created_at', { ascending: false }) *)
Definition select_class_posts (d : db) (uid : session) : list ClassPost.t :=
  map (fun r => ClassPost.mk (posts.id r) (posts.title r) (posts.content r)
                             (posts.created_at r)
                             (embedded_author d uid (posts.teacher_id r)))
      (order_by (fun a b => Nat.leb (posts.created_at b) (posts.created_at a))
         (filter (fun r => holds (posts_select d uid r)) (public_posts d))).

(** from('attendance').select('id, date, status').eq('student_id', s)
      .order('date', { ascending: false }) *)
Definition select_attendance_of (d : db) (uid : session) (s : uuid)
  : list Attendance.t :=
  map (fun r => Attendance.mk (attendance.id r) (attendance.date r) (attendance.status r))
      (order_by (fun a b => date_leb (attendance.date b) (attendance.date a))
         (filter (fun r => holds (attendance_select d uid r)
                           && String.eqb (attendance.student_id r) s)
                 (public_attendance d))).

(** SELECT * FROM public.classes, as the caller sees it. *)
Definition select_classes (d : db) (uid : session) : list classes.row :=
  filter (fun c => holds (classes_select d uid c)) (public_classes d).

(** SELECT * FROM public.attendance, as the caller sees it. *)
Definition select_attendance (d : db) (uid : session) : list attendance.row :=
  filter (fun r => holds (attendance_select d uid r)) (public_attendance d).

End Backend.

(** ** Dashboards *)

(** The profile handed to a dashboard by the auth context. *)
Module Profile.
Record t : Set := mk
  { id : uuid; name : text; role : user_role; class_id : option uuid }.
End Profile.

(** What a component does besides updating its state. *)
Inductive cmd : Set :=
| Toast (title description : text) (destructive : bool)
| Issue (r : request)
| SignOut.

(** [data || []] *)
Definition or_empty {A : Type} (x : option (list A)) : list A :=
  match x with Some l => l | None => [] end.

(** JavaScript truthiness of a [string | null]. *)
Definition truthy (s : option string) : bool :=
  match s with
  | None => false
  | Some EmptyString => false
  | Some _ => true
  end.

Module TeacherDashboard.

Inductive tab : Set := posts_tab | attendance_tab.

Record state : Set := mk_state
  { posts : list Post.t;
    students : list Student.t;
    attendance : list AttendanceRecord.t;
    loading : bool;
    activeTab : tab;
    newPost : text * text;
    selectedDate : date }.

(** The state of the first render; [today] is
    new Date().toISOString().split('T')[0]. *)
Definition initial (today : date) : state :=
  mk_state [] [] [] true posts_tab ("", "") today.

Definition setPosts (v : list Post.t) (s : state) : state :=
  mk_state v (students s) (attendance s) (loading s) (activeTab s) (newPost s) (selectedDate s).
Definition setStudents (v : list Student.t) (s : state) : state :=
  mk_state (posts s) v (attendance s) (loading s) (activeTab s) (newPost s) (selectedDate s).
Definition setAttendance (v : list AttendanceRecord.t) (s : state) : state :=
  mk_state (posts s) (students s) v (loading s) (activeTab s) (newPost s) (selectedDate s).
Definition setLoading (v : bool) (s : state) : state :=
  mk_state (posts s) (students s) (attendance s) v (activeTab s) (newPost s) (selectedDate s).
Definition setActiveTab (v : tab) (s : state) : state :=
  mk_state (posts s) (students s) (attendance s) (loading s) v (newPost s) (selectedDate s).
Definition setNewPost (v : text * text) (s : state) : state :=
  mk_state (posts s) (students s) (attendance s) (loading s) (activeTab s) v (selectedDate s).
Definition setSelectedDate (v : date) (s : state) : state :=
  mk_state (posts s) (students s) (attendance s) (loading s) (activeTab s) (newPost s) v.

(** What happens to the component: a user action, or a call resolving.  The
    upsert resolves in the handler of the click, which still holds the date
    selected when the button was rendered: [day]. *)
Inductive msg : Type :=
| Mounted
| PostsFetched (r : response (list Post.t))
| StudentsFetched (r : response (list Student.t))
| AttendanceFetched (r : response (list AttendanceRecord.t))
| NewPostEdited (title content : text)
| PostSubmitted
| PostInserted (r : response unit)
| AttendanceClicked (studentId : uuid) (status : attendance_status)
| AttendanceUpserted (day : date) (r : response unit)
| DateChanged (v : date)
| TabClicked (t : tab)
| SignOutClicked.

(** fetchPosts, fetchStudents and fetchAttendance up to their await. *)
Definition fetchPosts (profile : Profile.t) : list cmd :=
  [Issue (SelectOwnPosts (Profile.id profile))].

Definition fetchStudents (profile : Profile.t) : list cmd :=
  match Profile.class_id profile with
  | Some c => if truthy (Some c) then [Issue (SelectStudents c)] else []
  | None => []
  end.

Definition fetchAttendance (s : state) : list cmd :=
  [Issue (SelectAttendanceOn (selectedDate s))].

Definition update (profile : Profile.t) (m : msg) (s : state) : state * list cmd :=
  match m with
  | Mounted =>
      (s, (fetchPosts profile ++ fetchStudents profile ++ fetchAttendance s)%list)
  | PostsFetched r =>
      match error r with
      | Some _ => (s, [Toast "Error" "Failed to fetch posts" true])
      | None => (setPosts (or_empty (data r)) s, [])
      end
  | StudentsFetched r =>
      match error r with
      | Some _ => (s, [Toast "Error" "Failed to fetch students" true])
      | None => (setStudents (or_empty (data r)) s, [])
      end
  | AttendanceFetched r =>
      match error r with
      | Some _ => (setLoading false s, [Toast "Error" "Failed to fetch attendance" true])
      | None => (setLoading false (setAttendance (or_empty (data r)) s), [])
      end
  | NewPostEdited t c => (setNewPost (t, c) s, [])
  | PostSubmitted =>
      match Profile.class_id profile with
      | Some c =>
          if truthy (Some c)
          then (s, [Issue (InsertPost (Profile.id profile) c
                                      (fst (newPost s)) (snd (newPost s)))])
          else (s, [Toast "Error" "You must be assigned to a class to create posts" true])
      | None => (s, [Toast "Error" "You must be assigned to a class to create posts" true])
      end
  | PostInserted r =>
      match error r with
      | Some _ => (s, [Toast "Error" "Failed to create post" true])
      | None => (setNewPost ("", "") s,
                 Toast "Success" "Post created successfully" false :: fetchPosts profile)
      end
  | AttendanceClicked studentId status =>
      (s, [Issue (UpsertAttendance studentId (selectedDate s) status)])
  | AttendanceUpserted day r =>
      match error r with
      | Some _ => (s, [Toast "Error" "Failed to mark attendance" true])
      | None => (s, [Toast "Success" "Attendance marked successfully" false;
                     Issue (SelectAttendanceOn day)])
      end
  | DateChanged v =>
      (* the timer runs the fetchAttendance of the render that registered
         it, which still holds the date shown before the change *)
      (setSelectedDate v s, fetchAttendance s)
  | TabClicked t => (setActiveTab t s, [])
  | SignOutClicked => (s, [SignOut; Toast "Success" "Signed out successfully" false])
  end.

(** getAttendanceStatus *)
Definition getAttendanceStatus (s : state) (studentId : uuid) : option attendance_status :=
  match filter (fun a => String.eqb (AttendanceRecord.student_id a) studentId)
               (attendance s) with
  | a :: _ => Some (AttendanceRecord.status a)
  | [] => None
  end.

(** The rows of the "Mark Attendance" card: one per student in state. *)
Definition grid (s : state) : list (text * option attendance_status) :=
  map (fun st => (Student.name st, getAttendanceStatus s (Student.id st))) (students s).

(** The error carried by a message that resolves a call. *)
Definition call_error (m : msg) : option text :=
  match m with
  | PostsFetched r => error r
  | StudentsFetched r => error r
  | AttendanceFetched r => error r
  | PostInserted r => error r
  | AttendanceUpserted _ r => error r
  | _ => None
  end.

End TeacherDashboard.

Module StudentDashboard.

Record state : Set := mk_state
  { posts : list ClassPost.t;
    attendance : list Attendance.t;
    loading : bool }.

Definition initial : state := mk_state [] [] true.

Definition setPosts (v : list ClassPost.t) (s : state) : state :=
  mk_state v (attendance s) (loading s).
Definition setAttendance (v : list Attendance.t) (s : state) : state :=
  mk_state (posts s) v (loading s).
Definition setLoading (v : bool) (s : state) : state :=
  mk_state (posts s) (attendance s) v.

Inductive msg : Type :=
| Mounted
| PostsFetched (r : response (list ClassPost.t))
| AttendanceFetched (r : response (list Attendance.t))
| SignOutClicked.

Definition fetchPosts : list cmd := [Issue SelectClassPosts].

Definition fetchAttendance (profile : Profile.t) : list cmd :=
  [Issue (SelectAttendanceOf (Profile.id profile))].

Definition update (profile : Profile.t) (m : msg) (s : state) : state * list cmd :=
  match m with
  | Mounted => (s, (fetchPosts ++ fetchAttendance profile)%list)
  | PostsFetched r =>
      match error r with
      | Some _ => (s, [Toast "Error" "Failed to fetch posts" true])
      | None => (setPosts (or_empty (data r)) s, [])
      end
  | AttendanceFetched r =>
      match error r with
      | Some _ => (setLoading false s, [Toast "Error" "Failed to fetch attendance" true])
      | None => (setLoading false (setAttendance (or_empty (data r)) s), [])
      end
  | SignOutClicked => (s, [SignOut; Toast "Success" "Signed out successfully" false])
  end.

Definition call_error (m : msg) : option text :=
  match m with
  | PostsFetched r => error r
  | AttendanceFetched r => error r
  | _ => None
  end.

(** The records of the "Recent Attendance" card: attendance.slice(0, 10). *)
Definition recent (s : state) : list Attendance.t := firstn 10 (attendance s).

End StudentDashboard.

(** ** AttendanceChart.tsx *)

Module AttendanceChart.

Record summary : Set := mk_summary { present_n : nat; absent_n : nat }.

(** The reducer of attendanceSummary. *)
Definition tally (acc : summary) (record : Attendance.t) : summary :=
  match Attendance.status record with
  | present => mk_summary (present_n acc + 1) (absent_n acc)
  | absent => mk_summary (present_n acc) (absent_n acc + 1)
  end.

(** data.reduce(..., { present: 0, absent: 0 }) *)
Definition attendanceSummary (data : list Attendance.t) : summary :=
  fold_left tally data (mk_summary 0 0).

Record slice : Set := mk_slice { name : text; value : nat; color : text }.

Definition chartData (data : list Attendance.t) : list slice :=
  [ mk_slice "Present" (present_n (attendanceSummary data)) "#10b981";
    mk_slice "Absent" (absent_n (attendanceSummary data)) "#ef4444" ].

Definition COLORS : list text := ["#10b981"; "#ef4444"].

(** The fill of the cell at [index]: COLORS[index % COLORS.length]. *)
Definition cell_fill (index : nat) : text :=
  nth (index mod List.length COLORS) COLORS "".

Inductive view : Set :=
| NoData
| Pie (slices : list slice) (fills : list text).

Definition render (data : list Attendance.t) : view :=
  if Nat.eqb (List.length data) 0 then NoData
  else Pie (chartData data) (map cell_fill (seq 0 (List.length (chartData data)))).

(** The number of records of a status. *)
Definition count_status (st : attendance_status) (data : list Attendance.t) : nat :=
  List.length (filter (fun r => attendance_status_eqb (Attendance.status r) st) data).

End AttendanceChart.

(** ** The teacher dashboard running against the store *)

Module System.
Import RLS.

(** The store resolving a request of the teacher dashboard for the caller
    [uid]; [fresh] and [now] are what gen_random_uuid() and now() return
    should the request insert a row. *)
Definition resolve (uid : session) (net : option text) (fresh : uuid)
    (now : timestamptz) (q : request) (d : db)
  : option (TeacherDashboard.msg * db) :=
  match q with
  | SelectOwnPosts t =>
      Some (TeacherDashboard.PostsFetched
              (Backend.answer net (Backend.select_own_posts d uid t)), d)
  | SelectStudents c =>
      Some (TeacherDashboard.StudentsFetched
              (Backend.answer net (Backend.select_students d uid c)), d)
  | SelectAttendanceOn day =>
      Some (TeacherDashboard.AttendanceFetched
              (Backend.answer net (Backend.select_attendance_on d uid day)), d)
  | InsertPost t c title content =>
      let (d', r) := Backend.mutate net d
                       (Store.insert_post uid fresh now t c title content d) in
      Some (TeacherDashboard.PostInserted r, d')
  | UpsertAttendance s day st =>
      let (d', r) := Backend.mutate net d
                       (Store.upsert_attendance uid fresh now s day st d) in
      Some (TeacherDashboard.AttendanceUpserted day r, d')
  | SelectClassPosts => None
  | SelectAttendanceOf _ => None
  end.

(** The messages that come from the user rather than from the store. *)
Definition is_action (m : TeacherDashboard.msg) : bool :=
  match m with
  | TeacherDashboard.Mounted
  | TeacherDashboard.NewPostEdited _ _
  | TeacherDashboard.PostSubmitted
  | TeacherDashboard.AttendanceClicked _ _
  | TeacherDashboard.DateChanged _
  | TeacherDashboard.TabClicked _
  | TeacherDashboard.SignOutClicked => true
  | _ => false
  end.

Inductive event : Type :=
| User (m : TeacherDashboard.msg)
| Resolved (net : option text) (fresh : uuid) (now : timestamptz) (q : request).

(** One event.  Any request may be resolved at any time, whether or not the
    component has issued it: more runs than the component has. *)
Definition step (uid : session) (profile : Profile.t) (e : event)
    (w : db * TeacherDashboard.state) : db * TeacherDashboard.state :=
  match e with
  | User m =>
      if is_action m
      then (fst w, fst (TeacherDashboard.update profile m (snd w)))
      else w
  | Resolved net fresh now q =>
      match resolve uid net fresh now q (fst w) with
      | Some (m, d') => (d', fst (TeacherDashboard.update profile m (snd w)))
      | None => w
      end
  end.

Definition run (uid : session) (profile : Profile.t) (es : list event)
    (w : db * TeacherDashboard.state) : db * TeacherDashboard.state :=
  fold_left (fun w e => step uid profile e w) es w.

(** *** Marking attendance *)

(** One mark of a pair (student, date): who marks, the status, and the
    defaults the store would use for a new row. *)
Record mark : Set := mk_mark
  { mark_by : session;
    mark_fresh : uuid;
    mark_now : timestamptz;
    mark_status : attendance_status }.

(** The store after a mark, with the status of the last mark applied; a
    mark the store rejects changes nothing. *)
Definition apply_mark (s : uuid) (dt : date)
    (acc : db * option attendance_status) (m : mark)
  : db * option attendance_status :=
  match Store.upsert_attendance (mark_by m) (mark_fresh m) (mark_now m)
                                s dt (mark_status m) (fst acc) with
  | Ok d' => (d', Some (mark_status m))
  | Err _ => acc
  end.

Definition apply_marks (s : uuid) (dt : date) (ms : list mark) (d : db)
  : db * option attendance_status :=
  fold_left (apply_mark s dt) ms (d, None).

(** What the marks of a pair (s, dt) maintain: the uniqueness constraint,
    and one row with the status of the last mark applied, if any was. *)
Definition marked (s : uuid) (dt : date) (acc : db * option attendance_status) : Prop :=
  unique_attendance (public_attendance (fst acc)) /\
  forall st, snd acc = Some st ->
    exists r, filter (Store.same_key s dt) (public_attendance (fst acc)) = [r] /\
              attendance.status r = st.

(** *** Posts and their authors *)

(** The author of [r] has a profile whose class is the class of [r]. *)
Definition author_in_class (d : db) (r : posts.row) : bool :=
  existsb (fun p => String.eqb (profiles.id p) (posts.teacher_id r)
                    && holds (sql_eq (profiles.class_id p) (Some (posts.class_id r))))
          (public_profiles d).

Definition authors_in_class (d : db) : bool :=
  forallb (author_in_class d) (public_posts d).

End System.

(** ** Sample data *)

Module Sample.

Definition class_a : classes.row := classes.mk "class-a" "Class A" 0.
Definition class_b : classes.row := classes.mk "class-b" "Class B" 0.
Definition class_c : classes.row := classes.mk "class-c" "Class C" 0.

Definition tina : profiles.row :=
  profiles.mk "tina" "Tina" teacher (Some "class-a") 1 1.
Definition sam : profiles.row :=
  profiles.mk "sam" "Sam" student (Some "class-a") 2 2.
Definition omar : profiles.row :=
  profiles.mk "omar" "Omar" student (Some "class-b") 3 3.

Definition account (p : profiles.row) : users.row :=
  users.mk (profiles.id p) (Some (profiles.id p ++ "@school.test")) [].

Definition tinas_post : posts.row :=
  posts.mk "post-1" "tina" "class-a" "Welcome" "First day" 4.

Definition sam_present : attendance.row :=
  attendance.mk "att-1" "sam" "2024-01-01" present 5.
Definition tina_present : attendance.row :=
  attendance.mk "att-2" "tina" "2024-01-01" present 6.

(** The three seeded classes, one teacher and two students. *)
Definition school : db :=
  mkdb [account tina; account sam; account omar]
       [class_a; class_b; class_c]
       [tina; sam; omar]
       [tinas_post]
       [sam_present].

(** The school before any attendance is marked. *)
Definition school_unmarked : db := Store.set_attendance school [].

(** Two marks sent by Tina: present, then absent. *)
Definition tinas_marks : list System.mark :=
  [System.mk_mark (Some "tina") "att-7" 7 present;
   System.mk_mark (Some "tina") "att-8" 8 absent].

(** The seeded classes and nothing else. *)
Definition seeded : db := mkdb [] [class_a; class_b; class_c] [] [] [].

End Sample.

(** * Properties *)

(** ** Three-valued logic *)

Section Logic.

Lemma holds_tv_of_bool (b : bool) : holds (tv_of_bool b) = b.
Proof. now destruct b. Qed.

Lemma holds_tv_and (a b : tv) : holds (tv_and a b) = holds a && holds b.
Proof. now destruct a, b. Qed.

Lemma holds_tv_or (a b : tv) : holds (tv_or a b) = holds a || holds b.
Proof. now destruct a, b. Qed.

Lemma holds_sql_eq_some (a b : string) :
  holds (sql_eq (Some a) (Some b)) = String.eqb a b.
Proof. apply holds_tv_of_bool. Qed.

Lemma holds_sql_eq (x y : option string) :
  holds (sql_eq x y) = true <-> exists a, x = Some a /\ y = Some a.
Proof.
  destruct x as [a|], y as [b|]; simpl; try rewrite holds_tv_of_bool.
  - rewrite String.eqb_eq. split.
    + intros ->. now exists b.
    + intros (c & Ha & Hb). congruence.
  - split; [discriminate | intros (c & _ & Hc); discriminate].
  - split; [discriminate | intros (c & Hc & _); discriminate].
  - split; [discriminate | intros (c & Hc & _); discriminate].
Qed.

(** NULL never equals anything, NULL included. *)
Lemma sql_eq_null_l (y : option string) : holds (sql_eq None y) = false.
Proof. reflexivity. Qed.

Lemma holds_sql_in (x : option string) (l : list (option string)) :
  holds (sql_in x l) = true <-> exists a, x = Some a /\ In (Some a) l.
Proof.
  induction l as [|y l IH]; simpl.
  - split; [discriminate | intros (a & _ & [])].
  - rewrite holds_tv_or, orb_true_iff, IH, holds_sql_eq. split.
    + intros [(a & Hx & Hy) | (a & Hx & Hin)]; exists a; subst; auto.
    + intros (a & Hx & [Hy | Hin]); [left | right]; exists a; auto.
Qed.

Lemma mem_In (x : uuid) (l : list uuid) : mem x l = true <-> In x l.
Proof.
  unfold mem. rewrite existsb_exists. split.
  - intros (y & Hy & He). apply String.eqb_eq in He. now subst.
  - intros H. exists x. split; [assumption | apply String.eqb_refl].
Qed.

Lemma mem_false (x : uuid) (l : list uuid) : mem x l = false <-> ~ In x l.
Proof.
  rewrite <- mem_In. destruct (mem x l); split; congruence.
Qed.

Lemma distinct_NoDup (l : list uuid) : distinct l = true <-> NoDup l.
Proof.
  induction l as [|x l IH]; simpl.
  - split; [constructor | reflexivity].
  - rewrite andb_true_iff, negb_true_iff, mem_false, IH. split.
    + intros (Hx & Hl). now constructor.
    + intros H. inversion H. auto.
Qed.

End Logic.

(** ** Keys *)

Lemma filter_none {A : Type} (f : A -> bool) (l : list A) :
  (forall x, In x l -> f x = false) -> filter f l = [].
Proof.
  induction l as [|y l IH]; simpl; intros H; [reflexivity|].
  rewrite (H y (or_introl eq_refl)). apply IH. intros x Hx. apply H. now right.
Qed.

Section Keys.

Context {A : Type} (key : A -> string).

(** Under a key constraint the rows with a given key are that row alone. *)
Lemma filter_key_single (l : list A) (x : A) :
  NoDup (map key l) -> In x l ->
  filter (fun y => String.eqb (key y) (key x)) l = [x].
Proof.
  induction l as [|y l IH]; simpl; intros Hnd Hin; [contradiction|].
  inversion Hnd as [|? ? Hnot Hnd']; subst.
  destruct Hin as [-> | Hin].
  - rewrite String.eqb_refl. f_equal.
    apply filter_none. intros z Hz.
    apply String.eqb_neq. intros He.
    apply Hnot. rewrite <- He. now apply in_map.
  - destruct (String.eqb (key y) (key x)) eqn:He.
    + apply String.eqb_eq in He. exfalso. apply Hnot.
      rewrite He. now apply in_map.
    + now apply IH.
Qed.

Lemma filter_key_absent (l : list A) (k : string) :
  ~ In k (map key l) -> filter (fun y => String.eqb (key y) k) l = [].
Proof.
  intros Hnot. apply filter_none. intros z Hz.
  apply String.eqb_neq. intros He.
  apply Hnot. rewrite <- He. now apply in_map.
Qed.

Lemma filter_key_length (l : list A) (k : string) :
  NoDup (map key l) -> List.length (filter (fun y => String.eqb (key y) k) l) <= 1.
Proof.
  intros Hnd.
  destruct (in_dec string_dec k (map key l)) as [Hin | Hnot].
  - apply in_map_iff in Hin. destruct Hin as (x & <- & Hx).
    now rewrite filter_key_single.
  - rewrite filter_key_absent by assumption. simpl. lia.
Qed.

Lemma NoDup_map_filter (f : A -> bool) (l : list A) :
  NoDup (map key l) -> NoDup (map key (filter f l)).
Proof.
  induction l as [|y l IH]; simpl; intros Hnd; [constructor|].
  inversion Hnd as [|? ? Hnot Hnd']; subst.
  destruct (f y); simpl; [constructor|]; auto.
  intros Hin. apply Hnot. apply in_map_iff in Hin.
  destruct Hin as (z & Hz & Hf). apply filter_In in Hf.
  rewrite <- Hz. apply in_map. tauto.
Qed.

(** A selection whose rows all carry one key returns at most one row. *)
Lemma filter_same_key_length (f : A -> bool) (l : list A) :
  NoDup (map key l) ->
  (forall x y, In x l -> In y l -> f x = true -> f y = true -> key x = key y) ->
  List.length (filter f l) <= 1.
Proof.
  intros Hnd Hsame.
  pose proof (NoDup_map_filter f l Hnd) as Hnf.
  assert (Hall : forall z, In z (filter f l) -> In z l /\ f z = true)
    by (intros z Hz; now apply filter_In).
  destruct (filter f l) as [|x [|y rest]]; simpl; try lia.
  exfalso. simpl in Hnf. inversion Hnf as [|? ? Hnot _]; subst.
  apply Hnot. left.
  destruct (Hall x) as (Hx & Hfx); [simpl; auto|].
  destruct (Hall y) as (Hy & Hfy); [simpl; auto|].
  symmetry. now apply Hsame.
Qed.

End Keys.

(** ** Policies *)

Section Policies.
Import RLS.

Lemma user_role_eqb_eq (a b : user_role) : user_role_eqb a b = true <-> a = b.
Proof. destruct a, b; simpl; split; congruence. Qed.

Lemma in_inner_join {A B : Type} (t1 : list A) (t2 : list B) (on : A -> B -> tv)
    (a : A) (b : B) :
  In (a, b) (inner_join t1 t2 on) <-> In a t1 /\ In b t2 /\ holds (on a b) = true.
Proof.
  unfold inner_join. rewrite in_flat_map. split.
  - intros (r1 & H1 & Hm). apply in_map_iff in Hm.
    destruct Hm as (r2 & Heq & Hf). apply filter_In in Hf.
    inversion Heq; subst. tauto.
  - intros (H1 & H2 & Hon). exists a. split; [assumption|].
    apply in_map_iff. exists b. split; [reflexivity|].
    apply filter_In. tauto.
Qed.

(** The caller reads exactly their own row of profiles. *)
Lemma in_from_profiles (d : db) (uid : session) (p : profiles.row) :
  In p (from_profiles d uid) <->
  In p (public_profiles d) /\ uid = Some (profiles.id p).
Proof.
  unfold from_profiles, profiles_select. rewrite filter_In, holds_sql_eq.
  split.
  - intros (Hin & a & Hu & Hp). split; [assumption|]. congruence.
  - intros (Hin & Hu). split; [assumption|]. exists (profiles.id p). auto.
Qed.

Lemma from_profiles_own (d : db) (P : profiles.row) :
  pk_profiles d -> In P (public_profiles d) ->
  from_profiles d (Some (profiles.id P)) = [P].
Proof.
  intros Hpk Hin. unfold from_profiles.
  rewrite <- (filter_key_single profiles.id (public_profiles d) P Hpk Hin).
  apply filter_ext. intros r. unfold profiles_select.
  rewrite holds_sql_eq_some. apply String.eqb_sym.
Qed.

Lemma from_profiles_anonymous (d : db) : from_profiles d None = [].
Proof.
  unfold from_profiles. apply filter_none. intros r _. reflexivity.
Qed.

(** The sub-select of the three teacher policies of attendance, over any
    relation [profs] standing for public.profiles: the ids of the profiles
    whose class is the (non-null) class of the caller's teacher profile. *)
Lemma class_roster_spec (profs : list profiles.row) (uid : session) (s : uuid) :
  holds (sql_in (Some s) (class_roster profs uid)) = true <->
  exists p1 p2 c,
    In p1 profs /\ In p2 profs /\ profiles.id p1 = s /\
    uid = Some (profiles.id p2) /\ profiles.role p2 = teacher /\
    profiles.class_id p1 = Some c /\ profiles.class_id p2 = Some c.
Proof.
  rewrite holds_sql_in. unfold class_roster. split.
  - intros (a & Ha & Hin). inversion Ha; subst a; clear Ha.
    apply in_map_iff in Hin. destruct Hin as ((p1 & p2) & Heq & Hf).
    inversion Heq as [Hid]; clear Heq.
    apply filter_In in Hf. destruct Hf as (Hj & Hw).
    apply in_inner_join in Hj. destruct Hj as (H1 & H2 & Hon).
    rewrite holds_tv_and, andb_true_iff, holds_tv_of_bool in Hw.
    destruct Hw as (Hu & Hr).
    apply holds_sql_eq in Hu. destruct Hu as (u & Hu1 & Hu2).
    apply holds_sql_eq in Hon. destruct Hon as (c & Hc1 & Hc2).
    apply user_role_eqb_eq in Hr.
    exists p1, p2, c. repeat split; auto. congruence.
  - intros (p1 & p2 & c & H1 & H2 & Hid & Hu & Hr & Hc1 & Hc2).
    exists s. split; [reflexivity|].
    apply in_map_iff. exists (p1, p2). split; [now rewrite Hid|].
    apply filter_In. split.
    + apply in_inner_join. repeat split; auto.
      apply holds_sql_eq. exists c. auto.
    + rewrite holds_tv_and, andb_true_iff, holds_tv_of_bool. split.
      * apply holds_sql_eq. exists (profiles.id p2). auto.
      * now apply user_role_eqb_eq.
Qed.

(** What the teacher policies of attendance grant: under row level
    security on profiles both sides of the join range over the caller's
    own row, so the only student_id they admit is the caller's. *)
Lemma attendance_teacher_iff (d : db) (uid : session) (r : attendance.row) :
  holds (attendance_teacher d uid r) = true <->
  uid = Some (attendance.student_id r) /\
  exists p c, In p (public_profiles d) /\
              profiles.id p = attendance.student_id r /\
              profiles.role p = teacher /\ profiles.class_id p = Some c.
Proof.
  unfold attendance_teacher. rewrite class_roster_spec. split.
  - intros (p1 & p2 & c & H1 & H2 & Hid & Hu & Hr & Hc1 & Hc2).
    apply in_from_profiles in H1. apply in_from_profiles in H2.
    destruct H1 as (H1 & Hu1), H2 as (H2 & Hu2).
    split; [congruence|].
    exists p2, c. repeat split; auto. congruence.
  - intros (Hu & p & c & Hin & Hid & Hr & Hc).
    exists p, p, c.
    assert (In p (from_profiles d uid))
      by (apply in_from_profiles; split; [assumption | congruence]).
    repeat split; auto. congruence.
Qed.

(** The sub-select [SELECT class_id FROM profiles WHERE id = auth.uid()]. *)
Lemma own_class_ids_spec (d : db) (uid : session) (c : uuid) :
  holds (sql_in (Some c) (own_class_ids (from_profiles d uid) uid)) = true <->
  exists p, In p (public_profiles d) /\ uid = Some (profiles.id p) /\
            profiles.class_id p = Some c.
Proof.
  rewrite holds_sql_in. unfold own_class_ids. split.
  - intros (a & Ha & Hin). inversion Ha; subst a; clear Ha.
    apply in_map_iff in Hin. destruct Hin as (p & Hc & Hf).
    apply filter_In in Hf. destruct Hf as (Hp & _).
    apply in_from_profiles in Hp. exists p. tauto.
  - intros (p & Hin & Hu & Hc). exists c. split; [reflexivity|].
    apply in_map_iff. exists p. split; [assumption|].
    apply filter_In. split.
    + apply in_from_profiles. auto.
    + apply holds_sql_eq. exists (profiles.id p). auto.
Qed.

Lemma teacher_class_ids_spec (d : db) (uid : session) (c : uuid) :
  holds (sql_in (Some c) (teacher_class_ids (from_profiles d uid) uid)) = true <->
  exists p, In p (public_profiles d) /\ uid = Some (profiles.id p) /\
            profiles.role p = teacher /\ profiles.class_id p = Some c.
Proof.
  rewrite holds_sql_in. unfold teacher_class_ids. split.
  - intros (a & Ha & Hin). inversion Ha; subst a; clear Ha.
    apply in_map_iff in Hin. destruct Hin as (p & Hc & Hf).
    apply filter_In in Hf. destruct Hf as (Hp & Hw).
    apply in_from_profiles in Hp.
    rewrite holds_tv_and, andb_true_iff, holds_tv_of_bool in Hw.
    destruct Hw as (_ & Hr). apply user_role_eqb_eq in Hr.
    exists p. tauto.
  - intros (p & Hin & Hu & Hr & Hc). exists c. split; [reflexivity|].
    apply in_map_iff. exists p. split; [assumption|].
    apply filter_In. split.
    + apply in_from_profiles. auto.
    + rewrite holds_tv_and, andb_true_iff, holds_tv_of_bool. split.
      * apply holds_sql_eq. exists (profiles.id p). auto.
      * now apply user_role_eqb_eq.
Qed.

(** A primary key makes "the caller's profile" one row. *)
Lemma profile_unique (d : db) (p q : profiles.row) :
  pk_profiles d -> In p (public_profiles d) -> In q (public_profiles d) ->
  profiles.id p = profiles.id q -> p = q.
Proof.
  intros Hpk Hp Hq Hid.
  pose proof (filter_key_single profiles.id _ q Hpk Hq) as Hf.
  assert (Hin : In p (filter (fun y => String.eqb (profiles.id y) (profiles.id q))
                             (public_profiles d))).
  { apply filter_In. split; [assumption | now apply String.eqb_eq]. }
  rewrite Hf in Hin. destruct Hin as [<- | []]. reflexivity.
Qed.

End Policies.

(** ** Attendance as teachers and students reach it *)

Section AttendanceAccess.
Import RLS Sample.

Lemma pk_profiles_school : pk_profiles school.
Proof.
  unfold pk_profiles. simpl.
  repeat constructor; simpl; intuition discriminate.
Qed.

(** C1, at the roster of Class A: Tina is a teacher of the class, Sam a
    student of the same class, and yet none of the three teacher policies
    of attendance admits a row of Sam for Tina: the row is not returned to
    her and her mark of Sam is rejected.  Over the whole of profiles the
    sub-select of the policies returns Tina and Sam; it reads profiles under
    "Users can view their own profile", though, which leaves Tina's own row
    as the whole roster. *)
Theorem C1_teacher_policy_misses_class_students :
  pk_profiles school /\
  In tina (public_profiles school) /\ In sam (public_profiles school) /\
  profiles.role tina = teacher /\
  profiles.class_id sam = profiles.class_id tina /\
  attendance.student_id sam_present = profiles.id sam /\
  class_roster (public_profiles school) (Some (profiles.id tina))
    = [Some (profiles.id tina); Some (profiles.id sam)] /\
  class_roster (from_profiles school (Some (profiles.id tina)))
               (Some (profiles.id tina)) = [Some (profiles.id tina)] /\
  holds (attendance_teacher school (Some (profiles.id tina)) sam_present) = false /\
  holds (attendance_insert school (Some (profiles.id tina)) sam_present) = false /\
  holds (attendance_update school (Some (profiles.id tina)) sam_present) = false /\
  Backend.select_attendance school (Some (profiles.id tina)) = [] /\
  Store.upsert_attendance (Some (profiles.id tina)) "att-9" 9
                          (profiles.id sam) "2024-01-01" absent school
    = Err row_security_violation.
Proof.
  split; [apply pk_profiles_school|].
  simpl. repeat split; auto.
Qed.

(** C4: what a caller whose profile has role student gets from a SELECT on
    attendance are rows of their own. *)
Theorem C4_student_reads_own_attendance
    (d : db) (S : profiles.row) (r : attendance.row) :
  pk_profiles d ->
  In S (public_profiles d) ->
  profiles.role S = student ->
  In r (Backend.select_attendance d (Some (profiles.id S))) ->
  attendance.student_id r = profiles.id S.
Proof.
  intros Hpk HS Hrole Hr.
  unfold Backend.select_attendance in Hr. apply filter_In in Hr.
  destruct Hr as (_ & Hsel).
  unfold attendance_select in Hsel.
  rewrite holds_tv_or, orb_true_iff in Hsel.
  destruct Hsel as [Hown | Hteach].
  - unfold attendance_student in Hown. rewrite holds_sql_eq_some in Hown.
    now apply String.eqb_eq.
  - exfalso. unfold attendance_teacher in Hteach.
    apply class_roster_spec in Hteach.
    destruct Hteach as (p1 & p2 & c & _ & H2 & _ & Hu & Hr2 & _).
    apply in_from_profiles in H2. destruct H2 as (H2 & _).
    inversion Hu as [Hid].
    assert (S = p2) by (apply (profile_unique d); assumption).
    subst p2. congruence.
Qed.

Lemma C4_student_reads_own_attendance_witness :
  attendance.student_id sam_present = profiles.id sam.
Proof.
  apply (C4_student_reads_own_attendance school sam sam_present).
  - apply pk_profiles_school.
  - simpl. auto.
  - reflexivity.
  - simpl. auto.
Defined.

End AttendanceAccess.

(** ** Posts and classes *)

Section PostsAndClasses.
Import RLS Sample.

Lemma posts_insert_iff (d : db) (uid : session) (r : posts.row) :
  holds (posts_insert d uid r) = true <->
  uid = Some (posts.teacher_id r) /\
  exists p, In p (public_profiles d) /\ uid = Some (profiles.id p) /\
            profiles.role p = teacher /\
            profiles.class_id p = Some (posts.class_id r).
Proof.
  unfold posts_insert.
  rewrite holds_tv_and, andb_true_iff, teacher_class_ids_spec, holds_sql_eq.
  split.
  - intros ((a & Ha & Hu) & Hp). split; [congruence | assumption].
  - intros (Hu & Hp). split; [|assumption].
    exists (posts.teacher_id r). auto.
Qed.

(** C2: an INSERT on posts is permitted exactly when the caller is the
    teacher_id of the new row and the caller's profile is a teacher's whose
    class_id is the class_id of the new row: that is when the WITH CHECK
    holds, that is when the insert is not rejected by row level security,
    and, the id being unused and the class existing, that is when the row is
    written.  For any other caller than the teacher_id the insert is
    rejected, whatever the class. *)
Theorem C2_post_insert_check (d : db) (uid : session) (r : posts.row) :
  let permitted :=
    uid = Some (posts.teacher_id r) /\
    exists p, In p (public_profiles d) /\ uid = Some (profiles.id p) /\
              profiles.role p = teacher /\
              profiles.class_id p = Some (posts.class_id r) in
  (holds (posts_insert d uid r) = true <-> permitted) /\
  (forall fresh now,
     Store.insert_post uid fresh now (posts.teacher_id r) (posts.class_id r)
                       (posts.title r) (posts.content r) d
     = Err row_security_violation <-> ~ permitted) /\
  (forall fresh now d',
     Store.insert_post uid fresh now (posts.teacher_id r) (posts.class_id r)
                       (posts.title r) (posts.content r) d = Ok d' <->
     permitted /\
     ~ In fresh (map posts.id (public_posts d)) /\
     In (posts.class_id r) (map classes.id (public_classes d)) /\
     d' = Store.set_posts d
            (public_posts d
             ++ [posts.mk fresh (posts.teacher_id r) (posts.class_id r)
                          (posts.title r) (posts.content r) now])) /\
  (uid <> Some (posts.teacher_id r) ->
     holds (posts_insert d uid r) = false /\
     forall fresh now,
       Store.insert_post uid fresh now (posts.teacher_id r) (posts.class_id r)
                         (posts.title r) (posts.content r) d
       = Err row_security_violation).
Proof.
  intros permitted.
  assert (Hiff : forall fresh now,
            holds (posts_insert d uid
                     (posts.mk fresh (posts.teacher_id r) (posts.class_id r)
                               (posts.title r) (posts.content r) now)) = true
            <-> permitted)
    by (intros fresh now; apply posts_insert_iff).
  assert (Hrej : forall fresh now,
            Store.insert_post uid fresh now (posts.teacher_id r) (posts.class_id r)
                              (posts.title r) (posts.content r) d
            = Err row_security_violation <-> ~ permitted).
  { intros fresh now. specialize (Hiff fresh now). unfold Store.insert_post.
    destruct (holds (posts_insert d uid _)) eqn:Hrls; cbn [negb].
    - split.
      + destruct (mem fresh _); [discriminate|].
        destruct (negb _); discriminate.
      + intros Hn. exfalso. apply Hn. now apply Hiff.
    - split; [|reflexivity]. intros _ Hp. apply Hiff in Hp. discriminate. }
  split; [apply posts_insert_iff|]. split; [exact Hrej|]. split.
  - intros fresh now d'. specialize (Hiff fresh now). unfold Store.insert_post.
    destruct (holds (posts_insert d uid _)) eqn:Hrls; cbn [negb].
    + destruct (mem fresh (map posts.id (public_posts d))) eqn:Hpk.
      * split; [discriminate|]. intros (_ & Hfresh & _).
        apply mem_In in Hpk. contradiction.
      * destruct (mem (posts.teacher_id r) (map profiles.id (public_profiles d)))
          eqn:Ht.
        -- destruct (mem (posts.class_id r) (map classes.id (public_classes d)))
             eqn:Hc; cbn [andb negb].
           ++ split.
              ** intros H. injection H as <-.
                 split; [now apply Hiff|]. split; [now apply mem_false|].
                 split; [now apply mem_In | reflexivity].
              ** intros (_ & _ & _ & ->). reflexivity.
           ++ split; [discriminate|]. intros (_ & _ & Hin & _).
              apply mem_In in Hin. congruence.
        -- cbn [andb negb]. split; [discriminate|]. intros (Hp & _).
           exfalso. destruct Hp as (_ & p & Hp & Hu & _).
           apply mem_false in Ht. apply Ht.
           destruct (proj1 (Hiff) eq_refl) as (Hut & _).
           assert (profiles.id p = posts.teacher_id r) by congruence.
           rewrite <- H. now apply in_map.
    + split; [discriminate|]. intros (Hp & _). apply Hiff in Hp. discriminate.
  - intros Hne.
    assert (Hn : ~ permitted) by (intros (Hu & _); contradiction).
    split.
    + apply not_true_is_false. intros E. apply Hn. now apply posts_insert_iff.
    + intros fresh now. now apply Hrej.
Qed.

Lemma C2_post_insert_check_witness :
  holds (posts_insert school (Some "sam") tinas_post) = false /\
  forall fresh now,
    Store.insert_post (Some "sam") fresh now "tina" "class-a" "Welcome" "First day" school
    = Err row_security_violation.
Proof.
  apply (proj2 (proj2 (proj2 (C2_post_insert_check school (Some "sam") tinas_post)))).
  discriminate.
Defined.

Lemma classes_select_iff (d : db) (uid : session) (C : classes.row) :
  holds (classes_select d uid C) = true <->
  exists p, In p (public_profiles d) /\ uid = Some (profiles.id p) /\
            profiles.class_id p = Some (classes.id C).
Proof. apply own_class_ids_spec. Qed.

(** C8: a caller with profile P may SELECT the class row C exactly when
    P.class_id = C.id: the policy holds of C exactly then, and the classes
    returned to P are exactly the rows of classes with that id; no caller is
    returned more than one class. *)
Theorem C8_class_select (d : db) (P : profiles.row) (C : classes.row) :
  pk_profiles d -> pk_classes d -> In P (public_profiles d) ->
  (holds (classes_select d (Some (profiles.id P)) C) = true <->
     profiles.class_id P = Some (classes.id C)) /\
  (In C (Backend.select_classes d (Some (profiles.id P))) <->
     In C (public_classes d) /\ profiles.class_id P = Some (classes.id C)) /\
  (forall uid, List.length (Backend.select_classes d uid) <= 1).
Proof.
  intros Hpk Hpkc HP.
  assert (Hiff : holds (classes_select d (Some (profiles.id P)) C) = true <->
                 profiles.class_id P = Some (classes.id C)).
  { rewrite classes_select_iff. split.
    - intros (p & Hp & Hu & Hc). inversion Hu as [Hid].
      assert (P = p) by (apply (profile_unique d); assumption).
      now subst p.
    - intros Hc. exists P. auto. }
  split; [exact Hiff|]. split.
  - unfold Backend.select_classes. rewrite filter_In, Hiff. reflexivity.
  - intros uid. unfold Backend.select_classes.
    apply (filter_same_key_length classes.id); [exact Hpkc|].
    intros x y _ _ Hx Hy.
    apply classes_select_iff in Hx. apply classes_select_iff in Hy.
    destruct Hx as (p & Hp & Hu & Hc), Hy as (q & Hq & Hv & Hc').
    assert (p = q) by (apply (profile_unique d); congruence).
    subst q. congruence.
Qed.

Lemma pk_classes_school : pk_classes school.
Proof.
  unfold pk_classes. simpl.
  repeat constructor; simpl; intuition discriminate.
Qed.

Lemma C8_class_select_witness :
  (holds (classes_select school (Some "sam") class_a) = true <->
     profiles.class_id sam = Some (classes.id class_a)) /\
  (In class_a (Backend.select_classes school (Some "sam")) <->
     In class_a (public_classes school) /\
     profiles.class_id sam = Some (classes.id class_a)) /\
  (forall uid, List.length (Backend.select_classes school uid) <= 1).
Proof.
  apply (C8_class_select school sam class_a).
  - apply pk_profiles_school.
  - apply pk_classes_school.
  - simpl. auto.
Defined.

End PostsAndClasses.

(** ** Marking attendance *)

Section Marks.
Import RLS Store System Sample.

Lemma same_key_iff (s : uuid) (dt : date) (r : attendance.row) :
  same_key s dt r = true <-> attendance_key r = (s, dt).
Proof.
  unfold same_key, attendance_key.
  rewrite andb_true_iff, !String.eqb_eq. split.
  - intros (-> & ->). reflexivity.
  - intros H. inversion H. auto.
Qed.

Lemma attendance_key_set_status (st : attendance_status) (r : attendance.row) :
  attendance_key (set_status st r) = attendance_key r.
Proof. reflexivity. Qed.

Lemma existsb_same_key (s : uuid) (dt : date) (t : list attendance.row) :
  existsb (same_key s dt) t = false -> ~ In (s, dt) (map attendance_key t).
Proof.
  intros Hex Hin. apply in_map_iff in Hin. destruct Hin as (r & Hk & Hr).
  apply same_key_iff in Hk.
  assert (existsb (same_key s dt) t = true)
    by (apply existsb_exists; eauto).
  congruence.
Qed.

(** The keys of the table after an upsert: unchanged on the conflict path,
    one more otherwise. *)
Lemma upsert_keys (fresh : uuid) (now : timestamptz) (s : uuid) (dt : date)
    (st : attendance_status) (t : list attendance.row) :
  map attendance_key (upsert fresh now s dt st t) =
  if existsb (same_key s dt) t
  then map attendance_key t
  else (map attendance_key t ++ [(s, dt)])%list.
Proof.
  unfold upsert. destruct (existsb (same_key s dt) t).
  - rewrite map_map. apply map_ext. intros r.
    now destruct (same_key s dt r).
  - now rewrite map_app.
Qed.

(** The uniqueness constraint survives an upsert. *)
Lemma upsert_unique (fresh : uuid) (now : timestamptz) (s : uuid) (dt : date)
    (st : attendance_status) (t : list attendance.row) :
  unique_attendance t -> unique_attendance (upsert fresh now s dt st t).
Proof.
  unfold unique_attendance. intros Hnd. rewrite upsert_keys.
  destruct (existsb (same_key s dt) t) eqn:Hex; [assumption|].
  apply NoDup_app; [assumption | repeat constructor; simpl; tauto |].
  intros k Hk [<- | []]. now apply (existsb_same_key s dt t).
Qed.

Lemma same_key_set_status (s : uuid) (dt : date) (st : attendance_status)
    (r : attendance.row) :
  same_key s dt (set_status st r) = same_key s dt r.
Proof. reflexivity. Qed.

Lemma rewrite_in_place (s : uuid) (dt : date) (st : attendance_status)
    (t : list attendance.row) :
  unique_attendance t -> existsb (same_key s dt) t = true ->
  exists r, In r t /\ same_key s dt r = true /\
    filter (same_key s dt)
           (map (fun r => if same_key s dt r then set_status st r else r) t)
    = [set_status st r].
Proof.
  unfold unique_attendance.
  induction t as [|y t IH]; intros Hnd Hex; [discriminate|].
  inversion Hnd as [|? ? Hnot Hnd']; subst.
  cbn [map filter existsb] in *.
  destruct (same_key s dt y) eqn:Hy.
  - exists y. split; [now left|]. split; [exact Hy|].
    rewrite same_key_set_status, Hy.
    f_equal. apply filter_none. intros z Hz.
    apply in_map_iff in Hz. destruct Hz as (w & Hw & Hin).
    destruct (same_key s dt w) eqn:Hk.
    + exfalso. apply Hnot.
      apply same_key_iff in Hk. apply same_key_iff in Hy.
      rewrite Hy, <- Hk. now apply in_map.
    + subst z. exact Hk.
  - rewrite Hy. simpl in Hex.
    destruct (IH Hnd' Hex) as (r & Hr & Hk & Hf).
    exists r. split; [now right|]. split; assumption.
Qed.

(** After an upsert of (s, dt) one row carries the key, with the status
    just written. *)
Lemma upsert_row (fresh : uuid) (now : timestamptz) (s : uuid) (dt : date)
    (st : attendance_status) (t : list attendance.row) :
  unique_attendance t ->
  exists r, filter (same_key s dt) (upsert fresh now s dt st t) = [r] /\
            attendance.status r = st.
Proof.
  intros Hnd. unfold upsert.
  destruct (existsb (same_key s dt) t) eqn:Hex.
  - destruct (rewrite_in_place s dt st t Hnd Hex) as (r & _ & _ & Hf).
    exists (set_status st r). split; [assumption | reflexivity].
  - exists (attendance.mk fresh s dt st now). split; [|reflexivity].
    rewrite filter_app. simpl.
    unfold same_key at 2. simpl. rewrite !String.eqb_refl. simpl.
    rewrite filter_none; [reflexivity|].
    intros z Hz. apply not_true_is_false. intros Hk.
    assert (existsb (same_key s dt) t = true)
      by (apply existsb_exists; eauto).
    congruence.
Qed.

(** An upsert the store accepts writes attendance and nothing else. *)
Lemma upsert_attendance_ok (uid : session) (fresh : uuid) (now : timestamptz)
    (s : uuid) (dt : date) (st : attendance_status) (d d' : db) :
  upsert_attendance uid fresh now s dt st d = Ok d' ->
  d' = set_attendance d (upsert fresh now s dt st (public_attendance d)).
Proof.
  unfold upsert_attendance.
  repeat match goal with
         | |- (if ?c then _ else _) = _ -> _ => destruct c; try discriminate
         end.
  intros H. now inversion H.
Qed.

Lemma apply_mark_marked (s : uuid) (dt : date) (m : mark)
    (acc : db * option attendance_status) :
  marked s dt acc -> marked s dt (apply_mark s dt acc m).
Proof.
  intros (Hu & Hrow). unfold apply_mark.
  destruct (upsert_attendance _ _ _ _ _ _ _) as [d'|e] eqn:Hup;
    [|split; assumption].
  apply upsert_attendance_ok in Hup. subst d'. split; simpl.
  - now apply upsert_unique.
  - intros st Hst. inversion Hst; subst st. now apply upsert_row.
Qed.

Lemma apply_marks_marked (s : uuid) (dt : date) (ms : list mark)
    (acc : db * option attendance_status) :
  marked s dt acc -> marked s dt (fold_left (apply_mark s dt) ms acc).
Proof.
  revert acc. induction ms as [|m ms IH]; simpl; intros acc H; [assumption|].
  apply IH. now apply apply_mark_marked.
Qed.

(** Where marks are applied the upsert does what it is meant to: after any
    sequence of marks of the pair (s, dt), one of which at least the store
    applied, the table holds exactly one row for (s, dt), whose status is
    that of the last mark applied; the uniqueness constraint holds as
    before. *)
Lemma applied_marks_keep_one_row (d d' : db) (s : uuid) (dt : date)
    (ms : list mark) (st : attendance_status) :
  unique_attendance (public_attendance d) ->
  apply_marks s dt ms d = (d', Some st) ->
  unique_attendance (public_attendance d') /\
  exists r, filter (same_key s dt) (public_attendance d') = [r] /\
            attendance.student_id r = s /\ attendance.date r = dt /\
            attendance.status r = st.
Proof.
  intros Hu Hrun.
  assert (Hm : marked s dt (apply_marks s dt ms d)).
  { apply apply_marks_marked. split; [assumption | discriminate]. }
  rewrite Hrun in Hm. destruct Hm as (Hu' & Hrow). simpl in *.
  split; [assumption|].
  destruct (Hrow st eq_refl) as (r & Hf & Hst).
  exists r. split; [assumption|].
  assert (Hin : In r (filter (same_key s dt) (public_attendance d')))
    by (rewrite Hf; simpl; auto).
  apply filter_In in Hin. destruct Hin as (_ & Hk).
  apply same_key_iff in Hk. inversion Hk. auto.
Qed.

Lemma applied_marks_keep_one_row_example :
  unique_attendance
    (public_attendance (fst (apply_marks "tina" "2024-01-01" tinas_marks school))) /\
  exists r,
    filter (same_key "tina" "2024-01-01")
           (public_attendance (fst (apply_marks "tina" "2024-01-01" tinas_marks school)))
    = [r] /\
    attendance.student_id r = "tina" /\ attendance.date r = "2024-01-01" /\
    attendance.status r = absent.
Proof.
  apply (applied_marks_keep_one_row school _ "tina" "2024-01-01" tinas_marks absent).
  - unfold unique_attendance. simpl. repeat constructor. simpl. tauto.
  - reflexivity.
Defined.

(** No mark of a student is ever applied: the policies admit a mark only for
    the caller's own id, and only when the caller is a teacher. *)
Lemma mark_of_student_rejected (d : db) (S : profiles.row) (uid : session)
    (fresh : uuid) (now : timestamptz) (dt : date) (st : attendance_status) :
  pk_profiles d -> In S (public_profiles d) -> profiles.role S = student ->
  upsert_attendance uid fresh now (profiles.id S) dt st d
  = Err row_security_violation.
Proof.
  intros Hpk HS Hrole. unfold upsert_attendance.
  assert (Hf : holds (attendance_insert d uid
                        (attendance.mk fresh (profiles.id S) dt st now)) = false).
  { apply not_true_is_false. intros E. apply attendance_teacher_iff in E.
    destruct E as (_ & p & c & Hp & Hid & Ht & _). simpl in Hid.
    assert (p = S) by (apply (profile_unique d); assumption).
    subst p. congruence. }
  now rewrite Hf.
Qed.

Lemma marks_of_student_write_nothing (d : db) (S : profiles.row) (dt : date)
    (ms : list mark) :
  pk_profiles d -> In S (public_profiles d) -> profiles.role S = student ->
  apply_marks (profiles.id S) dt ms d = (d, None).
Proof.
  intros Hpk HS Hrole. unfold apply_marks.
  induction ms as [|m ms IH]; simpl; [reflexivity|].
  unfold apply_mark at 2. simpl.
  now rewrite (mark_of_student_rejected d S _ _ _ _ _ Hpk HS Hrole).
Qed.

(** C3, at the marks of Sam: Tina, a teacher of Sam's class, marks Sam
    present on 2024-01-01 and then absent.  Both marks are rejected by row
    level security (the teacher policies admit the caller's own id only),
    and no row for (Sam, 2024-01-01) is in the table, where the upsert was to
    leave exactly one, with status absent.  Where Sam already has a row for
    the date, it keeps the status it had. *)
Theorem C3_marks_of_a_student_are_not_applied :
  In tina (public_profiles school_unmarked) /\
  In sam (public_profiles school_unmarked) /\
  profiles.role tina = teacher /\
  profiles.class_id sam = profiles.class_id tina /\
  map mark_by tinas_marks = [Some (profiles.id tina); Some (profiles.id tina)] /\
  map mark_status tinas_marks = [present; absent] /\
  apply_marks (profiles.id sam) "2024-01-01" tinas_marks school_unmarked
    = (school_unmarked, None) /\
  filter (same_key (profiles.id sam) "2024-01-01")
         (public_attendance
            (fst (apply_marks (profiles.id sam) "2024-01-01" tinas_marks
                              school_unmarked)))
    = [] /\
  filter (same_key (profiles.id sam) "2024-01-01")
         (public_attendance
            (fst (apply_marks (profiles.id sam) "2024-01-01" tinas_marks school)))
    = [sam_present].
Proof.
  repeat split; simpl; auto.
Qed.

End Marks.

(** ** Posts stay with their author's class, or do not *)

Section PostAuthors.
Import RLS Store System Sample.

Lemma author_in_class_set_posts (d : db) (t : list posts.row) (r : posts.row) :
  author_in_class (set_posts d t) r = author_in_class d r.
Proof. reflexivity. Qed.

Lemma authors_in_class_set_posts (d : db) (t : list posts.row) :
  authors_in_class (set_posts d t) = forallb (author_in_class d) t.
Proof. reflexivity. Qed.

(** A permitted INSERT leaves every post in a class of its author. *)
Lemma insert_post_keeps_authors (uid : session) (fresh : uuid) (now : timestamptz)
    (t c : uuid) (title content : text) (d d' : db) :
  authors_in_class d = true ->
  insert_post uid fresh now t c title content d = Ok d' ->
  authors_in_class d' = true.
Proof.
  intros Hinv. unfold insert_post.
  destruct (holds (posts_insert d uid (posts.mk fresh t c title content now))) eqn:Hrls;
    simpl; [|discriminate].
  destruct (mem fresh _); [discriminate|].
  destruct (negb _); [discriminate|].
  intros H. injection H as <-.
  rewrite authors_in_class_set_posts, forallb_app. simpl.
  rewrite andb_true_r. apply andb_true_iff. split; [exact Hinv|].
  apply posts_insert_iff in Hrls. simpl in Hrls.
  destruct Hrls as (Hu & p & Hp & Hup & _ & Hc).
  unfold author_in_class. apply existsb_exists. exists p. split; [assumption|].
  simpl. apply andb_true_iff. split.
  - apply String.eqb_eq. congruence.
  - apply holds_sql_eq. exists c. auto.
Qed.

(** So does a DELETE. *)
Lemma delete_posts_keeps_authors (uid : session)
    (where_ : option (posts.row -> bool)) (d d' : db) :
  authors_in_class d = true ->
  delete_posts uid where_ d = Ok d' ->
  authors_in_class d' = true.
Proof.
  intros Hinv H. unfold delete_posts in H. injection H as <-.
  rewrite authors_in_class_set_posts.
  unfold authors_in_class in Hinv. rewrite forallb_forall in *.
  intros r Hr. apply filter_In in Hr. apply Hinv. tauto.
Qed.

(** What an accepted UPDATE of posts has passed. *)
Lemma update_posts_ok (uid : session) (s : posts_set)
    (where_ : option (posts.row -> bool)) (d d' : db) :
  update_posts uid s where_ d = Ok d' ->
  d' = set_posts d
         (map (fun r => if posts_target d uid posts_update where_ r
                        then apply_set s r else r)
              (public_posts d)) /\
  NoDup (map posts.id (public_posts d')) /\
  forall r, In r (public_posts d) ->
            posts_target d uid posts_update where_ r = true ->
            posts_new_row_rls d uid where_ (apply_set s r) = true /\
            posts_fk d (apply_set s r) = true.
Proof.
  unfold update_posts.
  match goal with
  | |- (if ?c then _ else _) = _ -> _ => destruct c eqn:Hrls; [discriminate|]
  end.
  match goal with
  | |- (if ?c then _ else _) = _ -> _ => destruct c eqn:Hpk; [discriminate|]
  end.
  match goal with
  | |- (if ?c then _ else _) = _ -> _ => destruct c eqn:Hfk; [discriminate|]
  end.
  intros H. injection H as <-.
  apply negb_false_iff in Hrls, Hpk, Hfk.
  rewrite forallb_forall in Hrls, Hfk.
  split; [reflexivity|]. split; [now apply distinct_NoDup|].
  intros r Hr Ht. split; [apply Hrls | apply Hfk]; apply filter_In; auto.
Qed.

(** An UPDATE keeps a post with its author. *)
Lemma update_posts_keeps_teacher (uid : session) (s : posts_set)
    (where_ : option (posts.row -> bool)) (d d' : db) (r' : posts.row) :
  update_posts uid s where_ d = Ok d' ->
  In r' (public_posts d') ->
  In r' (public_posts d) \/
  (uid = Some (posts.teacher_id r') /\
   exists r, In r (public_posts d) /\ uid = Some (posts.teacher_id r) /\
             r' = apply_set s r).
Proof.
  intros Hup Hin. apply update_posts_ok in Hup.
  destruct Hup as (-> & _ & Hchecks). simpl in Hin.
  apply in_map_iff in Hin. destruct Hin as (r & Hr' & Hr).
  destruct (posts_target d uid posts_update where_ r) eqn:Ht; [|left; congruence].
  right. destruct (Hchecks r Hr Ht) as (Hnew & _).
  unfold posts_new_row_rls in Hnew. apply andb_true_iff in Hnew.
  destruct Hnew as (Hnew & _).
  unfold posts_target in Ht. apply andb_true_iff in Ht. destruct Ht as (Hold & _).
  unfold posts_update in *.
  apply holds_sql_eq in Hnew. destruct Hnew as (a & Ha & Hu).
  apply holds_sql_eq in Hold. destruct Hold as (b & Hb & Hv).
  subst r'. split; [congruence|].
  exists r. repeat split; auto. congruence.
Qed.

Lemma posts_select_iff (d : db) (uid : session) (r : posts.row) :
  holds (posts_select d uid r) = true <->
  exists p, In p (public_profiles d) /\ uid = Some (profiles.id p) /\
            profiles.class_id p = Some (posts.class_id r).
Proof. apply own_class_ids_spec. Qed.

(** And so does an UPDATE with a WHERE clause: it reads the row, the row
    written then has to pass the SELECT policy of posts too, and that one
    does look at the class. *)
Lemma update_posts_where_keeps_authors (uid : session) (s : posts_set)
    (w : posts.row -> bool) (d d' : db) :
  authors_in_class d = true ->
  update_posts uid s (Some w) d = Ok d' ->
  authors_in_class d' = true.
Proof.
  intros Hinv Hup. apply update_posts_ok in Hup.
  destruct Hup as (-> & _ & Hchecks).
  rewrite authors_in_class_set_posts.
  unfold authors_in_class in Hinv. rewrite forallb_forall in *.
  intros r' Hin. apply in_map_iff in Hin. destruct Hin as (r & Hr' & Hr).
  destruct (posts_target d uid posts_update (Some w) r) eqn:Ht;
    [|subst r'; now apply Hinv].
  destruct (Hchecks r Hr Ht) as (Hnew & _).
  rewrite Hr' in Hnew. unfold posts_new_row_rls in Hnew.
  apply andb_true_iff in Hnew. destruct Hnew as (Hown & Hsel).
  apply posts_select_iff in Hsel. destruct Hsel as (p & Hp & Hu & Hc).
  unfold posts_update in Hown. apply holds_sql_eq in Hown.
  destruct Hown as (a & Ha & Hua).
  unfold author_in_class. apply existsb_exists. exists p. split; [assumption|].
  apply andb_true_iff. split.
  - apply String.eqb_eq. congruence.
  - apply holds_sql_eq. exists (posts.class_id r'). auto.
Qed.

(** C5, at Tina's post: Tina teaches Class A and her post is in Class A.
    [UPDATE posts SET class_id = 'class-b'], sent by Tina, reads no column,
    so that only the UPDATE policy applies; that one looks at teacher_id
    alone, and her post ends up in Class B, a class she does not belong
    to. *)
Theorem C5_update_moves_post_out_of_class :
  authors_in_class school = true /\
  exists d',
    update_posts (Some "tina") (mk_set None (Some "class-b") None None) None school
      = Ok d' /\
    public_posts d' = [posts.mk "post-1" "tina" "class-b" "Welcome" "First day" 4] /\
    public_profiles d' = public_profiles school /\
    authors_in_class d' = false.
Proof.
  split; [reflexivity|].
  eexists. split; [reflexivity|]. simpl. auto.
Qed.

End PostAuthors.

(** ** Identities: bootstrap and removal *)

Section Identities.
Import RLS Store Sample.

(** C6 as stated fails at Tina: she has authored a post, posts.teacher_id
    references her profile without a cascade, and so the removal of her
    identity is rejected; her profile row stays. *)
Lemma C6_identity_with_post_is_not_removed :
  In (account tina) (auth_users school) /\
  In tina (public_profiles school) /\
  delete_auth_user "tina" school = Err foreign_key_violation /\
  ~ (exists d', delete_auth_user "tina" school = Ok d' /\
                ~ In tina (public_profiles d')).
Proof.
  split; [simpl; auto|]. split; [simpl; auto|]. split; [reflexivity|].
  intros (d' & H & _). discriminate H.
Qed.

(** C6, amended: removing the identity of a profile P that no post and no
    attendance row references removes the row of P and no other row: no
    row with the identity is left, every other profile stays, one row less
    in profiles, and classes, posts and attendance are as before.  When a
    post or an attendance row references P the removal is rejected. *)
Theorem C6_identity_removal (d : db) (P : profiles.row) :
  pk_profiles d -> In P (public_profiles d) ->
  (profile_referenced (profiles.id P) d = false ->
     exists d',
       delete_auth_user (profiles.id P) d = Ok d' /\
       ~ In (profiles.id P) (map profiles.id (public_profiles d')) /\
       (forall q, In q (public_profiles d) -> profiles.id q <> profiles.id P ->
                  In q (public_profiles d')) /\
       (forall q, In q (public_profiles d') -> In q (public_profiles d)) /\
       List.length (public_profiles d') + 1 = List.length (public_profiles d) /\
       public_classes d' = public_classes d /\
       public_posts d' = public_posts d /\
       public_attendance d' = public_attendance d) /\
  (profile_referenced (profiles.id P) d = true ->
     delete_auth_user (profiles.id P) d = Err foreign_key_violation).
Proof.
  intros Hpk HP. unfold delete_auth_user. split; intros Href; rewrite Href.
  - rewrite andb_false_r. eexists. split; [reflexivity|]. simpl.
    split; [|split; [|split; [|split]]]; auto.
    + intros Hin. apply in_map_iff in Hin. destruct Hin as (q & Hid & Hq).
      apply filter_In in Hq. destruct Hq as (_ & Hne).
      apply negb_true_iff, String.eqb_neq in Hne. contradiction.
    + intros q Hq Hne. apply filter_In. split; [assumption|].
      now apply negb_true_iff, String.eqb_neq.
    + intros q Hq. apply filter_In in Hq. tauto.
    + rewrite <- (filter_length
                   (fun p => String.eqb (profiles.id p) (profiles.id P))
                   (public_profiles d)).
      rewrite (filter_key_single profiles.id _ P Hpk HP). simpl. lia.
  - rewrite andb_true_r.
    assert (Hex : existsb (fun p => String.eqb (profiles.id p) (profiles.id P))
                          (public_profiles d) = true).
    { apply existsb_exists. exists P. split; [assumption | apply String.eqb_refl]. }
    now rewrite Hex.
Qed.

Lemma C6_identity_removal_witness :
  (exists d',
     delete_auth_user (profiles.id omar) school = Ok d' /\
     ~ In (profiles.id omar) (map profiles.id (public_profiles d')) /\
     (forall q, In q (public_profiles school) -> profiles.id q <> profiles.id omar ->
                In q (public_profiles d')) /\
     (forall q, In q (public_profiles d') -> In q (public_profiles school)) /\
     List.length (public_profiles d') + 1 = List.length (public_profiles school) /\
     public_classes d' = public_classes school /\
     public_posts d' = public_posts school /\
     public_attendance d' = public_attendance school) /\
  delete_auth_user (profiles.id sam) school = Err foreign_key_violation.
Proof.
  split.
  - apply (proj1 (C6_identity_removal school omar pk_profiles_school
                    (or_intror (or_intror (or_introl eq_refl))))).
    reflexivity.
  - apply (proj2 (C6_identity_removal school sam pk_profiles_school
                    (or_intror (or_introl eq_refl)))).
    reflexivity.
Defined.

(** C7 as stated fails at an identity that asks for the role admin: the
    cast to user_role raises, the trigger fails and no profile row is
    created. *)
Lemma C7_unknown_role_creates_no_profile :
  ~ In "u1" (map users.id (auth_users seeded)) /\
  insert_auth_user 9 (users.mk "u1" (Some "u1@school.test") [("role", "admin")]) seeded
    = Err invalid_enum_label /\
  ~ (exists d',
       insert_auth_user 9 (users.mk "u1" (Some "u1@school.test") [("role", "admin")])
                        seeded = Ok d').
Proof.
  split; [simpl; tauto|]. split; [reflexivity|].
  intros (d' & H). discriminate H.
Qed.

(** C7, amended: for a new identity whose metadata carries no role or one
    of the two labels of user_role, and which has a name in its metadata or
    an email, the insert succeeds and the trigger has added exactly one
    profile row for the identity; with no role in the metadata its role is
    student, and with no name in the metadata its name is the email. *)
Theorem C7_identity_bootstrap (d : db) (now : timestamptz) (NEW : users.row) :
  fk_profiles_users d ->
  ~ In (users.id NEW) (map users.id (auth_users d)) ->
  (forall l, json_get_text (users.raw_user_meta_data NEW) "role" = Some l ->
             cast_user_role l <> None) ->
  coalesce (json_get_text (users.raw_user_meta_data NEW) "name") (users.email NEW)
    <> None ->
  exists d' p,
    insert_auth_user now NEW d = Ok d' /\
    public_profiles d' = (public_profiles d ++ [p])%list /\
    filter (fun q => String.eqb (profiles.id q) (users.id NEW)) (public_profiles d')
      = [p] /\
    profiles.id p = users.id NEW /\
    profiles.class_id p = None /\
    (json_get_text (users.raw_user_meta_data NEW) "role" = None ->
       profiles.role p = student) /\
    (json_get_text (users.raw_user_meta_data NEW) "name" = None ->
       users.email NEW = Some (profiles.name p)).
Proof.
  intros Hfk Hnew Hrole Hname.
  assert (Hfresh : ~ In (users.id NEW) (map profiles.id (public_profiles d))).
  { intros Hin. apply in_map_iff in Hin. destruct Hin as (q & Hid & Hq).
    apply Hnew. rewrite <- Hid. now apply Hfk. }
  assert (Hfilter : forall p, profiles.id p = users.id NEW ->
            filter (fun q => String.eqb (profiles.id q) (users.id NEW))
                   (public_profiles d ++ [p]) = [p]).
  { intros p Hp. rewrite filter_app, (filter_key_absent profiles.id _ _ Hfresh).
    simpl. rewrite Hp, String.eqb_refl. reflexivity. }
  unfold insert_auth_user.
  rewrite (proj2 (mem_false _ _) Hnew).
  unfold handle_new_user, cast_nullable.
  destruct (coalesce (json_get_text (users.raw_user_meta_data NEW) "name")
                     (users.email NEW)) as [n|] eqn:Hn; [clear Hname | congruence].
  assert (Hins : forall r,
    insert_profile now (users.id NEW) (Some n) (Some r)
                   (set_auth_users d (auth_users d ++ [NEW]))
    = Ok (set_profiles (set_auth_users d (auth_users d ++ [NEW]))
            (public_profiles d ++ [profiles.mk (users.id NEW) n r None now now]))).
  { intros r. unfold insert_profile. simpl.
    rewrite (proj2 (mem_false _ _) Hfresh).
    assert (Hm : mem (users.id NEW) (map users.id (auth_users d ++ [NEW])) = true).
    { apply mem_In. rewrite map_app, in_app_iff. right. simpl. auto. }
    now rewrite Hm. }
  assert (Hmail : json_get_text (users.raw_user_meta_data NEW) "name" = None ->
                  users.email NEW = Some n).
  { intros Hnone. now rewrite Hnone in Hn. }
  destruct (json_get_text (users.raw_user_meta_data NEW) "role") as [l|] eqn:Hl.
  - destruct (cast_user_role l) as [r|] eqn:Hc; [|now destruct (Hrole l eq_refl)].
    change (coalesce (Some r) (Some student)) with (Some r).
    rewrite Hins. do 2 eexists. split; [reflexivity|]. simpl.
    split; [reflexivity|]. split; [now apply Hfilter|].
    repeat split; auto. discriminate.
  - change (coalesce None (Some student)) with (Some student).
    rewrite Hins. do 2 eexists. split; [reflexivity|]. simpl.
    split; [reflexivity|]. split; [now apply Hfilter|].
    repeat split; auto.
Qed.

Lemma C7_identity_bootstrap_witness :
  exists d' p,
    insert_auth_user 9 (users.mk "u1" (Some "u1@school.test") []) seeded = Ok d' /\
    public_profiles d' = (public_profiles seeded ++ [p])%list /\
    filter (fun q => String.eqb (profiles.id q) "u1") (public_profiles d') = [p] /\
    profiles.id p = "u1" /\
    profiles.class_id p = None /\
    (json_get_text [] "role" = None -> profiles.role p = student) /\
    (json_get_text [] "name" = None -> Some "u1@school.test" = Some (profiles.name p)).
Proof.
  apply (C7_identity_bootstrap seeded 9 (users.mk "u1" (Some "u1@school.test") [])).
  - intros p [].
  - simpl. tauto.
  - simpl. discriminate.
  - simpl. discriminate.
Defined.

End Identities.

(** ** Dashboards: failed calls and the roster *)

Section Dashboards.
Import RLS Store System Sample.

(** C9: when a call of a dashboard resolves with an error, the component
    shows one destructive toast and does nothing else: it issues no call
    again and does not sign out; its posts, students and attendance are
    what they were (the state differs at most by the loading flag, which
    fetchAttendance clears). *)
Theorem C9_failed_call (profile : Profile.t) :
  (forall (m : TeacherDashboard.msg) (s : TeacherDashboard.state) (e : text),
     TeacherDashboard.call_error m = Some e ->
     let (s', cmds) := TeacherDashboard.update profile m s in
     TeacherDashboard.posts s' = TeacherDashboard.posts s /\
     TeacherDashboard.students s' = TeacherDashboard.students s /\
     TeacherDashboard.attendance s' = TeacherDashboard.attendance s /\
     (s' = s \/ s' = TeacherDashboard.setLoading false s) /\
     exists description, cmds = [Toast "Error" description true]) /\
  (forall (m : StudentDashboard.msg) (s : StudentDashboard.state) (e : text),
     StudentDashboard.call_error m = Some e ->
     let (s', cmds) := StudentDashboard.update profile m s in
     StudentDashboard.posts s' = StudentDashboard.posts s /\
     StudentDashboard.attendance s' = StudentDashboard.attendance s /\
     (s' = s \/ s' = StudentDashboard.setLoading false s) /\
     exists description, cmds = [Toast "Error" description true]).
Proof.
  split; intros m s e Herr; destruct m; simpl in Herr; try discriminate;
    simpl; rewrite Herr; repeat split; eauto.
Qed.

Lemma C9_failed_call_witness :
  (let (s', cmds) :=
     TeacherDashboard.update (Profile.mk "tina" "Tina" teacher (Some "class-a"))
       (TeacherDashboard.AttendanceUpserted "2024-01-01"
            (mk_response None (Some "timeout")))
       (TeacherDashboard.initial "2024-01-01") in
   TeacherDashboard.posts s' = [] /\
   TeacherDashboard.students s' = [] /\
   TeacherDashboard.attendance s' = [] /\
   (s' = TeacherDashboard.initial "2024-01-01" \/
    s' = TeacherDashboard.setLoading false (TeacherDashboard.initial "2024-01-01")) /\
   exists description, cmds = [Toast "Error" description true]) /\
  (let (s', cmds) :=
     StudentDashboard.update (Profile.mk "sam" "Sam" student (Some "class-a"))
       (StudentDashboard.AttendanceFetched (mk_response None (Some "timeout")))
       StudentDashboard.initial in
   StudentDashboard.posts s' = [] /\
   StudentDashboard.attendance s' = [] /\
   (s' = StudentDashboard.initial \/
    s' = StudentDashboard.setLoading false StudentDashboard.initial) /\
   exists description, cmds = [Toast "Error" description true]).
Proof.
  split.
  - apply (proj1 (C9_failed_call (Profile.mk "tina" "Tina" teacher (Some "class-a")))
             (TeacherDashboard.AttendanceUpserted "2024-01-01"
            (mk_response None (Some "timeout")))
             (TeacherDashboard.initial "2024-01-01") "timeout").
    reflexivity.
  - apply (proj2 (C9_failed_call (Profile.mk "sam" "Sam" student (Some "class-a")))
             (StudentDashboard.AttendanceFetched (mk_response None (Some "timeout")))
             StudentDashboard.initial "timeout").
    reflexivity.
Defined.

(** The roster query of a teacher returns no row: profiles is read through
    "Users can view their own profile", and the caller's own row is a
    teacher's. *)
Lemma select_students_teacher (d : db) (T : profiles.row) (c : uuid) :
  pk_profiles d -> In T (public_profiles d) -> profiles.role T = teacher ->
  Backend.select_students d (Some (profiles.id T)) c = [].
Proof.
  intros Hpk HT Hrole. unfold Backend.select_students.
  rewrite (from_profiles_own d T Hpk HT). simpl.
  rewrite Hrole, andb_false_r. reflexivity.
Qed.

Lemma insert_post_profiles (uid : session) (fresh : uuid) (now : timestamptz)
    (t c : uuid) (title content : text) (d d' : db) :
  insert_post uid fresh now t c title content d = Ok d' ->
  public_profiles d' = public_profiles d.
Proof.
  unfold insert_post.
  repeat match goal with
         | |- (if ?c then _ else _) = _ -> _ => destruct c; try discriminate
         end.
  intros H. injection H as <-. reflexivity.
Qed.

Lemma mutate_profiles (net : option text) (d : db) (r : result db) :
  (forall d', r = Ok d' -> public_profiles d' = public_profiles d) ->
  public_profiles (fst (Backend.mutate net d r)) = public_profiles d.
Proof.
  intros H. unfold Backend.mutate.
  destruct net; [reflexivity|]. destruct r as [d'|e]; simpl; auto.
Qed.

(** No message of the user touches the students in state. *)
Lemma action_keeps_students (profile : Profile.t) (m : TeacherDashboard.msg)
    (s : TeacherDashboard.state) :
  is_action m = true ->
  TeacherDashboard.students (fst (TeacherDashboard.update profile m s))
  = TeacherDashboard.students s.
Proof.
  destruct m; simpl; try discriminate; intros _; try reflexivity.
  destruct (Profile.class_id profile) as [[|a c]|]; reflexivity.
Qed.

(** One event of a teacher's dashboard keeps profiles as they are and the
    students in state empty. *)
Lemma step_keeps_roster_empty (d : db) (T : profiles.row) (profile : Profile.t)
    (e : event) (w : db * TeacherDashboard.state) :
  pk_profiles d -> In T (public_profiles d) -> profiles.role T = teacher ->
  public_profiles (fst w) = public_profiles d /\ TeacherDashboard.students (snd w) = [] ->
  public_profiles (fst (step (Some (profiles.id T)) profile e w)) = public_profiles d /\
  TeacherDashboard.students (snd (step (Some (profiles.id T)) profile e w)) = [].
Proof.
  intros Hpk HT Hrole (Hprof & Hst). destruct w as (d0, s). simpl in *.
  assert (Hpk0 : pk_profiles d0) by (unfold pk_profiles; now rewrite Hprof).
  assert (HT0 : In T (public_profiles d0)) by now rewrite Hprof.
  destruct e as [m | net fresh now q]; simpl.
  - destruct (is_action m) eqn:Ha; simpl; [|auto].
    split; [assumption|]. now rewrite action_keeps_students.
  - destruct q as [t | c | day | t c title content | sid day st | | sid];
      simpl; auto.
    + split; [assumption|]. destruct net; simpl; assumption.
    + split; [assumption|].
      rewrite (select_students_teacher d0 T c Hpk0 HT0 Hrole).
      destruct net; simpl; [assumption | reflexivity].
    + split; [assumption|]. destruct net; simpl; assumption.
    + pose proof (mutate_profiles net d0
                    (insert_post (Some (profiles.id T)) fresh now t c title content d0)
                    (fun d' H => insert_post_profiles _ _ _ _ _ _ _ _ _ H)) as Hm.
      destruct (Backend.mutate net d0 _) as (d1, r) eqn:Hmut. simpl in *.
      split; [congruence|]. destruct (error r); simpl; assumption.
    + pose proof (mutate_profiles net d0
                    (upsert_attendance (Some (profiles.id T)) fresh now sid day st d0))
        as Hm.
      destruct (Backend.mutate net d0 _) as (d1, r) eqn:Hmut. simpl in *.
      split.
      * rewrite Hm; [assumption|].
        intros d' H. apply upsert_attendance_ok in H. now subst d'.
      * destruct (error r); simpl; assumption.
Qed.

Lemma run_keeps_roster_empty (d : db) (T : profiles.row) (profile : Profile.t)
    (es : list event) (w : db * TeacherDashboard.state) :
  pk_profiles d -> In T (public_profiles d) -> profiles.role T = teacher ->
  public_profiles (fst w) = public_profiles d /\ TeacherDashboard.students (snd w) = [] ->
  TeacherDashboard.students (snd (run (Some (profiles.id T)) profile es w)) = [].
Proof.
  intros Hpk HT Hrole. revert w.
  induction es as [|e es IH]; intros w Hw; simpl; [tauto|].
  apply IH. now apply step_keeps_roster_empty.
Qed.

(** C10: for a caller whose profile has role teacher the roster query
    returns no row, whatever the class asked for; hence, however the
    teacher dashboard runs against the store, its students stay empty and
    the attendance grid lists nobody. *)
Theorem C10_teacher_roster_is_empty (d : db) (T : profiles.row)
    (profile : Profile.t) (today : date) :
  pk_profiles d -> In T (public_profiles d) -> profiles.role T = teacher ->
  (forall c, Backend.select_students d (Some (profiles.id T)) c = []) /\
  (forall es,
     TeacherDashboard.students
       (snd (run (Some (profiles.id T)) profile es (d, TeacherDashboard.initial today)))
     = [] /\
     TeacherDashboard.grid
       (snd (run (Some (profiles.id T)) profile es (d, TeacherDashboard.initial today)))
     = []).
Proof.
  intros Hpk HT Hrole. split.
  - intros c. now apply select_students_teacher.
  - intros es.
    assert (H : TeacherDashboard.students
                  (snd (run (Some (profiles.id T)) profile es
                            (d, TeacherDashboard.initial today))) = []).
    { apply (run_keeps_roster_empty d T); auto. }
    split; [assumption|].
    unfold TeacherDashboard.grid. now rewrite H.
Qed.

Lemma C10_teacher_roster_is_empty_witness :
  (forall c, Backend.select_students school (Some "tina") c = []) /\
  (forall es,
     TeacherDashboard.students
       (snd (run (Some "tina") (Profile.mk "tina" "Tina" teacher (Some "class-a")) es
                 (school, TeacherDashboard.initial "2024-01-01")))
     = [] /\
     TeacherDashboard.grid
       (snd (run (Some "tina") (Profile.mk "tina" "Tina" teacher (Some "class-a")) es
                 (school, TeacherDashboard.initial "2024-01-01")))
     = []).
Proof.
  apply (C10_teacher_roster_is_empty school tina
           (Profile.mk "tina" "Tina" teacher (Some "class-a")) "2024-01-01").
  - apply pk_profiles_school.
  - simpl. auto.
  - reflexivity.
Defined.

End Dashboards.


(** ** The attendance chart *)

Section Chart.
Import AttendanceChart.

Lemma fold_tally (data : list Attendance.t) (acc : summary) :
  present_n (fold_left tally data acc) = present_n acc + count_status present data /\
  absent_n (fold_left tally data acc) = absent_n acc + count_status absent data.
Proof.
  revert acc. induction data as [|r data IH]; intros acc; simpl.
  - unfold count_status. simpl. lia.
  - destruct (IH (tally acc r)) as (Hp & Ha). rewrite Hp, Ha.
    unfold tally, count_status. simpl.
    destruct (Attendance.status r); simpl; lia.
Qed.

Lemma count_status_total (data : list Attendance.t) :
  count_status present data + count_status absent data = List.length data.
Proof.
  unfold count_status. induction data as [|r data IH]; simpl; [reflexivity|].
  destruct (Attendance.status r); simpl; lia.
Qed.

Lemma summary_counts (data : list Attendance.t) :
  present_n (attendanceSummary data) = count_status present data /\
  absent_n (attendanceSummary data) = count_status absent data.
Proof.
  unfold attendanceSummary.
  destruct (fold_tally data (mk_summary 0 0)) as (Hp & Ha).
  simpl in Hp, Ha. now rewrite Hp, Ha.
Qed.

(** X1: the summary of the chart counts the records: as many present as
    there are records with status present, as many absent as there are with
    status absent, and the two add up to the number of records. *)
Theorem X1_summary_counts_records (data : list Attendance.t) :
  present_n (attendanceSummary data) = count_status present data /\
  absent_n (attendanceSummary data) = count_status absent data /\
  present_n (attendanceSummary data) + absent_n (attendanceSummary data)
  = List.length data.
Proof.
  destruct (summary_counts data) as (Hp & Ha).
  rewrite Hp, Ha. repeat split. apply count_status_total.
Qed.

(** X2: the chart shows the placeholder exactly when there is no record;
    otherwise it draws two slices, Present and Absent, whose values add up
    to the (non-zero) number of records, each cell filled with the colour of
    its slice. *)
Theorem X2_chart_drawn_when_records (data : list Attendance.t) :
  match render data with
  | NoData => data = []
  | Pie slices fills =>
      data <> [] /\
      map name slices = ["Present"; "Absent"] /\
      list_sum (map value slices) = List.length data /\
      0 < list_sum (map value slices) /\
      fills = map color slices
  end.
Proof.
  unfold render. destruct data as [|r data]; [reflexivity|].
  cbn [List.length Nat.eqb].
  assert (Hsum : list_sum (map value (chartData (r :: data)))
                 = List.length (r :: data)).
  { unfold chartData, list_sum. cbn [map value fold_right].
    destruct (summary_counts (r :: data)) as (Hp & Ha).
    pose proof (count_status_total (r :: data)). lia. }
  split; [discriminate|]. split; [reflexivity|]. split; [exact Hsum|].
  split; [rewrite Hsum; simpl; lia | reflexivity].
Qed.

End Chart.

(** ** ORDER BY *)

Section Ordering.

Context {A : Type} (le : A -> A -> bool).

Lemma insert_by_perm (x : A) (l : list A) : Permutation (insert_by le x l) (x :: l).
Proof.
  induction l as [|y l IH]; simpl; [reflexivity|].
  destruct (le x y); [reflexivity|].
  rewrite IH. apply perm_swap.
Qed.

Lemma order_by_perm (l : list A) : Permutation (order_by le l) l.
Proof.
  induction l as [|x l IH]; simpl; [reflexivity|].
  unfold order_by in *. simpl. rewrite insert_by_perm. now constructor.
Qed.

Lemma in_order_by (x : A) (l : list A) : In x (order_by le l) <-> In x l.
Proof.
  split; apply Permutation_in; [|symmetry]; apply order_by_perm.
Qed.

Hypothesis le_total : forall a b, le a b = true \/ le b a = true.

Lemma insert_by_hd (x y : A) (l : list A) :
  le y x = true -> HdRel (fun a b => le a b = true) y l ->
  HdRel (fun a b => le a b = true) y (insert_by le x l).
Proof.
  intros Hyx Hhd. destruct l as [|z l]; simpl; [now constructor|].
  destruct (le x z); constructor; [assumption|].
  now apply HdRel_inv in Hhd.
Qed.

Lemma insert_by_sorted (x : A) (l : list A) :
  Sorted (fun a b => le a b = true) l ->
  Sorted (fun a b => le a b = true) (insert_by le x l).
Proof.
  induction 1 as [|y l Hs IH Hhd]; simpl; [repeat constructor|].
  destruct (le x y) eqn:Hxy.
  - constructor; [now constructor | now constructor].
  - constructor; [assumption|]. apply insert_by_hd; [|assumption].
    destruct (le_total x y); congruence.
Qed.

Lemma order_by_sorted (l : list A) :
  Sorted (fun a b => le a b = true) (order_by le l).
Proof.
  induction l as [|x l IH]; [constructor|].
  unfold order_by in *. simpl. now apply insert_by_sorted.
Qed.

End Ordering.

Lemma StronglySorted_map {A B : Type} (f : A -> B) (R : B -> B -> Prop) (l : list A) :
  StronglySorted (fun a b => R (f a) (f b)) l -> StronglySorted R (map f l).
Proof.
  induction 1 as [|x l Hs IH Hall]; simpl; constructor; [assumption|].
  rewrite Forall_forall in *. intros y Hy. apply in_map_iff in Hy.
  destruct Hy as (z & <- & Hz). now apply Hall.
Qed.

Lemma StronglySorted_app_cross {A : Type} (R : A -> A -> Prop) (l1 l2 : list A) :
  StronglySorted R (l1 ++ l2) ->
  forall a b, In a l1 -> In b l2 -> R a b.
Proof.
  induction l1 as [|x l1 IH]; simpl; intros Hs a b Ha Hb; [contradiction|].
  apply StronglySorted_inv in Hs. destruct Hs as (Hs & Hall).
  destruct Ha as [<- | Ha]; [|now apply IH].
  rewrite Forall_forall in Hall. apply Hall. apply in_app_iff. now right.
Qed.

(** The order of dates is total and transitive. *)
Lemma rank_leb_iff (x y : Z * Z * Z * Z) :
  rank_leb x y = true <->
  let '(a1, b1, c1, d1) := x in
  let '(a2, b2, c2, d2) := y in
  (a1 < a2 \/ (a1 = a2 /\ (b1 < b2 \/ (b1 = b2 /\
     (c1 < c2 \/ (c1 = c2 /\ d1 <= d2))))))%Z.
Proof.
  destruct x as (((a1, b1), c1), d1), y as (((a2, b2), c2), d2).
  unfold rank_leb.
  repeat rewrite ?orb_true_iff, ?andb_true_iff.
  rewrite !Z.ltb_lt, !Z.eqb_eq, Z.leb_le.
  reflexivity.
Qed.

Lemma rank_leb_total (x y : Z * Z * Z * Z) :
  rank_leb x y = true \/ rank_leb y x = true.
Proof.
  rewrite !rank_leb_iff.
  destruct x as (((a1, b1), c1), d1), y as (((a2, b2), c2), d2). lia.
Qed.

Lemma rank_leb_trans (x y z : Z * Z * Z * Z) :
  rank_leb x y = true -> rank_leb y z = true -> rank_leb x z = true.
Proof.
  rewrite !rank_leb_iff.
  destruct x as (((a1, b1), c1), d1), y as (((a2, b2), c2), d2),
           z as (((a3, b3), c3), d3). lia.
Qed.

Lemma date_leb_total (a b : date) : date_leb a b = true \/ date_leb b a = true.
Proof.
  unfold date_leb. destruct (date_rank a) as [x|], (date_rank b) as [y|]; auto.
  apply rank_leb_total.
Qed.

Lemma date_leb_trans (a b c : date) :
  date_leb a b = true -> date_leb b c = true -> date_leb a c = true.
Proof.
  unfold date_leb.
  destruct (date_rank a) as [x|], (date_rank b) as [y|], (date_rank c) as [z|];
    auto; try discriminate.
  apply rank_leb_trans.
Qed.

(** ** What the dashboards' queries return *)

Section Queries.
Import RLS Store System Sample.

Lemma StronglySorted_weaken {A : Type} (R R' : A -> A -> Prop) (l : list A) :
  (forall a b, R a b -> R' a b) -> StronglySorted R l -> StronglySorted R' l.
Proof.
  intros Himp. induction 1 as [|x l Hs IH Hall]; constructor; [assumption|].
  rewrite Forall_forall in *. auto.
Qed.

(** Rows ordered by created_at, newest first. *)
Lemma order_by_created_at_desc {A : Type} (at_ : A -> timestamptz) (l : list A) :
  StronglySorted (fun a b => at_ b <= at_ a)
                 (order_by (fun a b => Nat.leb (at_ b) (at_ a)) l).
Proof.
  apply StronglySorted_weaken
    with (R := fun a b => Nat.leb (at_ b) (at_ a) = true).
  - intros a b H. now apply Nat.leb_le.
  - apply Sorted_StronglySorted.
    + intros a b c Hab Hbc. apply Nat.leb_le in Hab, Hbc. apply Nat.leb_le. lia.
    + apply order_by_sorted. intros a b.
      destruct (Nat.leb (at_ b) (at_ a)) eqn:E; [now left|].
      right. apply Nat.leb_gt in E. apply Nat.leb_le. lia.
Qed.

Lemma in_select_own_posts (d : db) (uid : session) (t : uuid) (p : Post.t) :
  In p (Backend.select_own_posts d uid t) <->
  exists r, In r (public_posts d) /\ posts.teacher_id r = t /\
    (exists q, In q (public_profiles d) /\ uid = Some (profiles.id q) /\
               profiles.class_id q = Some (posts.class_id r)) /\
    p = Post.mk (posts.id r) (posts.title r) (posts.content r) (posts.created_at r).
Proof.
  unfold Backend.select_own_posts. rewrite in_map_iff. split.
  - intros (r & Hp & Hr). apply in_order_by, filter_In in Hr.
    destruct Hr as (Hr & Hf). apply andb_true_iff in Hf.
    destruct Hf as (Hsel & Ht). apply String.eqb_eq in Ht.
    apply posts_select_iff in Hsel. exists r. auto.
  - intros (r & Hr & Ht & Hq & Hp). exists r. split; [auto|].
    apply in_order_by, filter_In. split; [assumption|].
    apply andb_true_iff. split.
    + now apply posts_select_iff.
    + now apply String.eqb_eq.
Qed.

(** X3: "Your Posts" is ordered newest first and lists exactly the posts
    with the teacher_id asked for that the caller may read: those whose
    class is the class of the caller's profile. *)
Theorem X3_own_posts_newest_first (d : db) (uid : session) (t : uuid) :
  StronglySorted (fun a b => Post.created_at b <= Post.created_at a)
                 (Backend.select_own_posts d uid t) /\
  forall p, In p (Backend.select_own_posts d uid t) <->
    exists r, In r (public_posts d) /\ posts.teacher_id r = t /\
      (exists q, In q (public_profiles d) /\ uid = Some (profiles.id q) /\
                 profiles.class_id q = Some (posts.class_id r)) /\
      p = Post.mk (posts.id r) (posts.title r) (posts.content r) (posts.created_at r).
Proof.
  split.
  - unfold Backend.select_own_posts.
    apply StronglySorted_map. simpl. apply (order_by_created_at_desc posts.created_at).
  - apply in_select_own_posts.
Qed.

(** An insert the store accepts appends the row, and the policy held. *)
Lemma insert_post_ok (uid : session) (fresh : uuid) (now : timestamptz)
    (t c : uuid) (title content : text) (d d' : db) :
  insert_post uid fresh now t c title content d = Ok d' ->
  d' = set_posts d (public_posts d ++ [posts.mk fresh t c title content now]) /\
  holds (posts_insert d uid (posts.mk fresh t c title content now)) = true /\
  ~ In fresh (map posts.id (public_posts d)) /\
  In t (map profiles.id (public_profiles d)) /\
  In c (map classes.id (public_classes d)).
Proof.
  unfold insert_post.
  destruct (holds (posts_insert d uid _)) eqn:Hrls; simpl; [|discriminate].
  destruct (mem fresh _) eqn:Hpk; [discriminate|].
  destruct (mem t _ && mem c _) eqn:Hfk; simpl; [|discriminate].
  intros H. injection H as <-.
  apply andb_true_iff in Hfk. destruct Hfk as (Ht & Hc).
  repeat split; auto.
  - now apply mem_false.
  - now apply mem_In.
  - now apply mem_In.
Qed.

(** X4: a post the store has accepted is listed at once: among the author's
    own posts, and among the class posts of every caller whose profile is in
    the class of the post. *)
Theorem X4_inserted_post_is_listed (uid : session) (fresh : uuid)
    (now : timestamptz) (t c : uuid) (title content : text) (d d' : db) :
  insert_post uid fresh now t c title content d = Ok d' ->
  In (Post.mk fresh title content now) (Backend.select_own_posts d' uid t) /\
  forall q, In q (public_profiles d) -> profiles.class_id q = Some c ->
    In (ClassPost.mk fresh title content now
          (Backend.embedded_author d' (Some (profiles.id q)) t))
       (Backend.select_class_posts d' (Some (profiles.id q))).
Proof.
  intros Hins. apply insert_post_ok in Hins.
  destruct Hins as (-> & Hrls & _). apply posts_insert_iff in Hrls.
  simpl in Hrls. destruct Hrls as (Hu & p & Hp & Hup & _ & Hc).
  set (r := posts.mk fresh t c title content now).
  split.
  - apply in_select_own_posts. exists r. split.
    + simpl. apply in_app_iff. right. simpl. auto.
    + repeat split. exists p. auto.
  - intros q Hq Hqc. unfold Backend.select_class_posts.
    apply in_map_iff. exists r. split; [reflexivity|].
    apply in_order_by, filter_In. split.
    + simpl. apply in_app_iff. right. simpl. auto.
    + apply posts_select_iff. exists q. auto.
Qed.

Lemma X4_inserted_post_is_listed_witness :
  In (Post.mk "post-2" "Exam" "Friday" 7)
     (Backend.select_own_posts
        (set_posts school
           (public_posts school ++ [posts.mk "post-2" "tina" "class-a" "Exam" "Friday" 7]))
        (Some "tina") "tina") /\
  forall q, In q (public_profiles school) -> profiles.class_id q = Some "class-a" ->
    In (ClassPost.mk "post-2" "Exam" "Friday" 7
          (Backend.embedded_author
             (set_posts school
                (public_posts school ++ [posts.mk "post-2" "tina" "class-a" "Exam" "Friday" 7]))
             (Some (profiles.id q)) "tina"))
       (Backend.select_class_posts
          (set_posts school
             (public_posts school ++ [posts.mk "post-2" "tina" "class-a" "Exam" "Friday" 7]))
          (Some (profiles.id q))).
Proof.
  apply (X4_inserted_post_is_listed (Some "tina") "post-2" 7 "tina" "class-a"
           "Exam" "Friday" school).
  reflexivity.
Defined.

(** X5: with a post, the name of its author reaches a caller only when the
    caller is that author: profiles is embedded under "Users can view their
    own profile", so on every post of somebody else post.profiles is null. *)
Theorem X5_author_embedded_for_own_posts_only (d : db) (uid : session) :
  (forall t n, Backend.embedded_author d uid t = Some n -> uid = Some t) /\
  (forall r, In r (public_posts d) -> uid <> Some (posts.teacher_id r) ->
             Backend.embedded_author d uid (posts.teacher_id r) = None).
Proof.
  assert (H : forall t n, Backend.embedded_author d uid t = Some n -> uid = Some t).
  { intros t n. unfold Backend.embedded_author.
    destruct (filter _ (from_profiles d uid)) as [|p l] eqn:Hf; [discriminate|].
    intros _.
    assert (Hin : In p (filter (fun p => String.eqb (profiles.id p) t)
                               (from_profiles d uid)))
      by (rewrite Hf; simpl; auto).
    apply filter_In in Hin. destruct Hin as (Hp & Ht).
    apply in_from_profiles in Hp. apply String.eqb_eq in Ht.
    destruct Hp as (_ & ->). now rewrite Ht. }
  split; [exact H|].
  intros r _ Hne.
  destruct (Backend.embedded_author d uid (posts.teacher_id r)) as [n|] eqn:E;
    [|reflexivity].
  apply H in E. contradiction.
Qed.

Lemma X5_author_embedded_for_own_posts_only_witness :
  Backend.embedded_author school (Some "sam") (posts.teacher_id tinas_post) = None.
Proof.
  apply (proj2 (X5_author_embedded_for_own_posts_only school (Some "sam")) tinas_post).
  - simpl. auto.
  - discriminate.
Defined.

End Queries.

(** ** Who can write what *)

Section Writes.
Import RLS Store System Sample.

(** A teacher's insert into their own class, with an unused id and an
    existing class, is accepted. *)
Lemma insert_post_accepts (T : profiles.row) (fresh : uuid) (now : timestamptz)
    (c : uuid) (title content : text) (d : db) :
  In T (public_profiles d) -> profiles.role T = teacher ->
  profiles.class_id T = Some c ->
  In c (map classes.id (public_classes d)) ->
  ~ In fresh (map posts.id (public_posts d)) ->
  insert_post (Some (profiles.id T)) fresh now (profiles.id T) c title content d
  = Ok (set_posts d (public_posts d
                     ++ [posts.mk fresh (profiles.id T) c title content now])).
Proof.
  intros HT Hrole Hc Hclass Hfresh. unfold insert_post.
  assert (Hrls : holds (posts_insert d (Some (profiles.id T))
                   (posts.mk fresh (profiles.id T) c title content now)) = true).
  { apply posts_insert_iff. split; [reflexivity|]. exists T. auto. }
  rewrite Hrls. simpl.
  rewrite (proj2 (mem_false _ _) Hfresh).
  assert (Ht : mem (profiles.id T) (map profiles.id (public_profiles d)) = true)
    by (apply mem_In; now apply in_map).
  rewrite Ht, (proj2 (mem_In _ _) Hclass). reflexivity.
Qed.

(** X6: a teacher whose dashboard holds their profile submits the form: the
    dashboard issues one insert, of a post by the teacher in the teacher's
    class with the title and content typed; once the store has resolved it
    and the fetch that follows, the new post is among "Your Posts" and the
    form is empty again. *)
Theorem X6_created_post_reaches_the_list
    (d : db) (T : profiles.row) (profile : Profile.t) (c : uuid)
    (s : TeacherDashboard.state) (fresh fresh' : uuid) (now now' : timestamptz) :
  In T (public_profiles d) -> profiles.role T = teacher ->
  profiles.class_id T = Some c ->
  In c (map classes.id (public_classes d)) ->
  ~ In fresh (map posts.id (public_posts d)) ->
  Profile.id profile = profiles.id T ->
  Profile.class_id profile = Some c -> c <> "" ->
  let insert := InsertPost (profiles.id T) c (fst (TeacherDashboard.newPost s))
                           (snd (TeacherDashboard.newPost s)) in
  let fetch := SelectOwnPosts (profiles.id T) in
  let w := run (Some (profiles.id T)) profile
               [Resolved None fresh now insert; Resolved None fresh' now' fetch]
               (d, s) in
  snd (TeacherDashboard.update profile TeacherDashboard.PostSubmitted s)
    = [Issue insert] /\
  snd (TeacherDashboard.update profile
         (TeacherDashboard.PostInserted (mk_response None None)) s)
    = [Toast "Success" "Post created successfully" false; Issue fetch] /\
  In (Post.mk fresh (fst (TeacherDashboard.newPost s))
              (snd (TeacherDashboard.newPost s)) now)
     (TeacherDashboard.posts (snd w)) /\
  TeacherDashboard.newPost (snd w) = ("", "").
Proof.
  intros HT Hrole Hc Hclass Hfresh Hid Hpc Hne insert fetch w.
  split; [|split].
  - simpl. rewrite Hpc, Hid. destruct c; [contradiction | reflexivity].
  - simpl. unfold TeacherDashboard.fetchPosts. now rewrite Hid.
  - assert (Hw : snd w =
              TeacherDashboard.setPosts
                (Backend.select_own_posts
                   (set_posts d
                      (public_posts d
                       ++ [posts.mk fresh (profiles.id T) c
                                    (fst (TeacherDashboard.newPost s))
                                    (snd (TeacherDashboard.newPost s)) now]))
                   (Some (profiles.id T)) (profiles.id T))
                (TeacherDashboard.setNewPost ("", "") s)).
    { subst w insert fetch. unfold run. cbn [fold_left step resolve fst snd].
      rewrite (insert_post_accepts T fresh now c _ _ d HT Hrole Hc Hclass Hfresh).
      reflexivity. }
    rewrite Hw. unfold TeacherDashboard.setPosts.
    cbn [TeacherDashboard.posts TeacherDashboard.newPost].
    split; [|reflexivity].
    apply in_select_own_posts.
    exists (posts.mk fresh (profiles.id T) c (fst (TeacherDashboard.newPost s))
                     (snd (TeacherDashboard.newPost s)) now).
    split; [apply in_app_iff; right; simpl; auto|].
    repeat split. exists T. auto.
Qed.

Lemma X6_created_post_reaches_the_list_witness :
  let s := TeacherDashboard.setNewPost ("Exam", "Friday")
             (TeacherDashboard.initial "2024-01-01") in
  let profile := Profile.mk "tina" "Tina" teacher (Some "class-a") in
  let insert := InsertPost "tina" "class-a" "Exam" "Friday" in
  let fetch := SelectOwnPosts "tina" in
  let w := run (Some "tina") profile
               [Resolved None "post-2" 7 insert; Resolved None "" 8 fetch]
               (school, s) in
  snd (TeacherDashboard.update profile TeacherDashboard.PostSubmitted s)
    = [Issue insert] /\
  snd (TeacherDashboard.update profile
         (TeacherDashboard.PostInserted (mk_response None None)) s)
    = [Toast "Success" "Post created successfully" false; Issue fetch] /\
  In (Post.mk "post-2" "Exam" "Friday" 7) (TeacherDashboard.posts (snd w)) /\
  TeacherDashboard.newPost (snd w) = ("", "").
Proof.
  apply (X6_created_post_reaches_the_list school tina
           (Profile.mk "tina" "Tina" teacher (Some "class-a")) "class-a"
           (TeacherDashboard.setNewPost ("Exam", "Friday")
              (TeacherDashboard.initial "2024-01-01"))
           "post-2" "" 7 8).
  - simpl. auto.
  - reflexivity.
  - reflexivity.
  - simpl. auto.
  - simpl. intuition discriminate.
  - reflexivity.
  - reflexivity.
  - discriminate.
Defined.

(** No policy of posts or attendance lets a student write. *)
Lemma student_is_no_teacher (d : db) (S p : profiles.row) :
  pk_profiles d -> In S (public_profiles d) -> profiles.role S = student ->
  In p (public_profiles d) -> Some (profiles.id S) = Some (profiles.id p) ->
  profiles.role p = teacher -> False.
Proof.
  intros Hpk HS Hrole Hp Hid Ht. inversion Hid as [Hid'].
  assert (S = p) by (apply (profile_unique d); assumption).
  subst p. congruence.
Qed.

(** X7: a caller whose profile has role student cannot create a post:
    whatever teacher_id, class, title and content they send, the insert is
    rejected by row level security. *)
Theorem X7_student_cannot_post (d : db) (S : profiles.row) :
  pk_profiles d -> In S (public_profiles d) -> profiles.role S = student ->
  forall fresh now t c title content,
    insert_post (Some (profiles.id S)) fresh now t c title content d
    = Err row_security_violation.
Proof.
  intros Hpk HS Hrole fresh now t c title content. unfold insert_post.
  assert (Hf : holds (posts_insert d (Some (profiles.id S))
                        (posts.mk fresh t c title content now)) = false).
  { apply not_true_is_false. intros E. apply posts_insert_iff in E.
    destruct E as (_ & p & Hp & Hu & Ht & _).
    exact (student_is_no_teacher d S p Hpk HS Hrole Hp Hu Ht). }
  now rewrite Hf.
Qed.

Lemma X7_student_cannot_post_witness :
  insert_post (Some "sam") "post-2" 7 "sam" "class-a" "Hello" "From Sam" school
  = Err row_security_violation.
Proof.
  apply (X7_student_cannot_post school sam).
  - apply pk_profiles_school.
  - simpl. auto.
  - reflexivity.
Defined.

(** X8: a caller whose profile has role student cannot mark attendance,
    their own included: every upsert they send is rejected by row level
    security. *)
Theorem X8_student_cannot_mark (d : db) (S : profiles.row) :
  pk_profiles d -> In S (public_profiles d) -> profiles.role S = student ->
  forall fresh now s dt st,
    upsert_attendance (Some (profiles.id S)) fresh now s dt st d
    = Err row_security_violation.
Proof.
  intros Hpk HS Hrole fresh now s dt st. unfold upsert_attendance.
  assert (Hf : holds (attendance_insert d (Some (profiles.id S))
                        (attendance.mk fresh s dt st now)) = false).
  { apply not_true_is_false. intros E.
    unfold attendance_insert, attendance_teacher in E.
    apply class_roster_spec in E.
    destruct E as (p1 & p2 & c & _ & H2 & _ & Hu & Ht & _).
    apply in_from_profiles in H2. destruct H2 as (H2 & _).
    exact (student_is_no_teacher d S p2 Hpk HS Hrole H2 Hu Ht). }
  now rewrite Hf.
Qed.

Lemma X8_student_cannot_mark_witness :
  upsert_attendance (Some "sam") "att-7" 7 "sam" "2024-01-02" present school
  = Err row_security_violation.
Proof.
  apply (X8_student_cannot_mark school sam).
  - apply pk_profiles_school.
  - simpl. auto.
  - reflexivity.
Defined.

End Writes.

(** ** What a write leaves alone *)

Section Frames.
Import RLS Store System Sample.

(** X9: a DELETE on posts removes posts of the caller only: every post of
    another author is still there, nothing is added, and the other tables
    are as before; a caller who is nobody's author deletes nothing. *)
Theorem X9_delete_removes_own_posts_only (uid : session)
    (where_ : option (posts.row -> bool)) (d : db) :
  exists d',
    delete_posts uid where_ d = Ok d' /\
    (forall r, In r (public_posts d') -> In r (public_posts d)) /\
    (forall r, In r (public_posts d) -> uid <> Some (posts.teacher_id r) ->
               In r (public_posts d')) /\
    (forall r, In r (public_posts d) -> ~ In r (public_posts d') ->
               uid = Some (posts.teacher_id r)) /\
    auth_users d' = auth_users d /\ public_classes d' = public_classes d /\
    public_profiles d' = public_profiles d /\
    public_attendance d' = public_attendance d.
Proof.
  eexists. split; [reflexivity|]. simpl.
  assert (Hkeep : forall r, In r (public_posts d) ->
            uid <> Some (posts.teacher_id r) ->
            In r (filter (fun r => negb (posts_target d uid posts_delete where_ r))
                         (public_posts d))).
  { intros r Hr Hne. apply filter_In. split; [assumption|].
    apply negb_true_iff. unfold posts_target.
    assert (Hf : holds (posts_delete uid r) = false).
    { apply not_true_is_false. intros E. unfold posts_delete in E.
      apply holds_sql_eq in E. destruct E as (a & Ha & Hu). congruence. }
    now rewrite Hf. }
  repeat split; auto.
  - intros r Hr. apply filter_In in Hr. tauto.
  - intros r Hr Hgone.
    destruct uid as [u|].
    + destruct (String.eqb u (posts.teacher_id r)) eqn:E.
      * apply String.eqb_eq in E. now subst.
      * exfalso. apply Hgone, Hkeep; [assumption|].
        apply String.eqb_neq in E. congruence.
    + exfalso. apply Hgone, Hkeep; [assumption | discriminate].
Qed.

(** X10: an accepted UPDATE on posts, whatever columns it assigns, keeps
    the number of posts, leaves every post of another author as it was, and
    cannot hand a post over: a row it has written has the caller as
    teacher_id.  The other tables are as before. *)
Theorem X10_update_touches_own_posts_only (uid : session) (s : posts_set)
    (where_ : option (posts.row -> bool)) (d d' : db) :
  update_posts uid s where_ d = Ok d' ->
  List.length (public_posts d') = List.length (public_posts d) /\
  (forall r, In r (public_posts d) -> uid <> Some (posts.teacher_id r) ->
             In r (public_posts d')) /\
  (forall r', In r' (public_posts d') ->
              In r' (public_posts d) \/ uid = Some (posts.teacher_id r')) /\
  auth_users d' = auth_users d /\ public_classes d' = public_classes d /\
  public_profiles d' = public_profiles d /\
  public_attendance d' = public_attendance d.
Proof.
  intros Hup.
  assert (Hrows : forall r', In r' (public_posts d') ->
            In r' (public_posts d) \/ uid = Some (posts.teacher_id r')).
  { intros r' Hr'.
    destruct (update_posts_keeps_teacher uid s where_ d d' r' Hup Hr')
      as [H | (H & _)]; auto. }
  apply update_posts_ok in Hup. destruct Hup as (-> & _ & _). simpl in *.
  repeat split; auto.
  - apply length_map.
  - intros r Hr Hne. apply in_map_iff. exists r. split; [|assumption].
    assert (Hf : posts_target d uid posts_update where_ r = false).
    { unfold posts_target. apply andb_false_iff. left.
      apply not_true_is_false. intros E. unfold posts_update in E.
      apply holds_sql_eq in E. destruct E as (a & Ha & Hu). congruence. }
    now rewrite Hf.
Qed.

Lemma X10_update_touches_own_posts_only_witness :
  let d' := set_posts school
              [posts.mk "post-9" "tina" "class-a" "Welcome back" "First day" 0] in
  List.length (public_posts d') = List.length (public_posts school) /\
  (forall r, In r (public_posts school) -> Some "tina" <> Some (posts.teacher_id r) ->
             In r (public_posts d')) /\
  (forall r', In r' (public_posts d') ->
              In r' (public_posts school) \/ Some "tina" = Some (posts.teacher_id r')) /\
  auth_users d' = auth_users school /\ public_classes d' = public_classes school /\
  public_profiles d' = public_profiles school /\
  public_attendance d' = public_attendance school.
Proof.
  apply (X10_update_touches_own_posts_only (Some "tina")
           (mk_posts_set (Some "post-9") None None (Some "Welcome back") None (Some 0))
           (Some (fun r => String.eqb (posts.id r) "post-1")) school).
  reflexivity.
Defined.

(** X11: an accepted mark rewrites the status of the row of its (student,
    date) pair and nothing else of it (same id, same created_at), leaves the
    rows of every other pair as they were, adds a row only when the pair had
    none, and touches no other table. *)
Theorem X11_mark_changes_one_status (uid : session) (fresh : uuid)
    (now : timestamptz) (s : uuid) (dt : date) (st : attendance_status) (d d' : db) :
  upsert_attendance uid fresh now s dt st d = Ok d' ->
  (forall r, In r (public_attendance d) -> same_key s dt r = false ->
             In r (public_attendance d')) /\
  (forall r, In r (public_attendance d) -> same_key s dt r = true ->
             In (attendance.mk (attendance.id r) s dt st (attendance.created_at r))
                (public_attendance d')) /\
  List.length (public_attendance d')
  = List.length (public_attendance d)
    + (if existsb (same_key s dt) (public_attendance d) then 0 else 1) /\
  auth_users d' = auth_users d /\ public_classes d' = public_classes d /\
  public_profiles d' = public_profiles d /\ public_posts d' = public_posts d.
Proof.
  intros Hup. apply upsert_attendance_ok in Hup. subst d'. simpl.
  unfold upsert.
  destruct (existsb (same_key s dt) (public_attendance d)) eqn:Hex.
  - repeat split; auto.
    + intros r Hr Hk. apply in_map_iff. exists r. now rewrite Hk.
    + intros r Hr Hk. apply in_map_iff. exists r. rewrite Hk.
      split; [|assumption]. unfold set_status.
      apply same_key_iff in Hk. unfold attendance_key in Hk.
      inversion Hk. reflexivity.
    + rewrite length_map. lia.
  - repeat split; auto.
    + intros r Hr _. apply in_app_iff. now left.
    + intros r Hr Hk. exfalso.
      assert (existsb (same_key s dt) (public_attendance d) = true)
        by (apply existsb_exists; eauto).
      congruence.
    + rewrite length_app. simpl. lia.
Qed.

Lemma X11_mark_changes_one_status_witness :
  let d' := set_attendance school
              [sam_present; attendance.mk "att-7" "tina" "2024-01-01" present 7] in
  (forall r, In r (public_attendance school) -> same_key "tina" "2024-01-01" r = false ->
             In r (public_attendance d')) /\
  (forall r, In r (public_attendance school) -> same_key "tina" "2024-01-01" r = true ->
             In (attendance.mk (attendance.id r) "tina" "2024-01-01" present
                               (attendance.created_at r))
                (public_attendance d')) /\
  List.length (public_attendance d')
  = List.length (public_attendance school)
    + (if existsb (same_key "tina" "2024-01-01") (public_attendance school)
       then 0 else 1) /\
  auth_users d' = auth_users school /\ public_classes d' = public_classes school /\
  public_profiles d' = public_profiles school /\ public_posts d' = public_posts school.
Proof.
  apply (X11_mark_changes_one_status (Some "tina") "att-7" 7 "tina" "2024-01-01"
           present school).
  reflexivity.
Defined.

End Frames.

(** ** What the dashboards show of attendance *)

Section AttendanceViews.
Import RLS Store System Sample.

Lemma NoDup_map_inj {A B : Type} (f : A -> B) (l : list A) (x y : A) :
  NoDup (map f l) -> In x l -> In y l -> f x = f y -> x = y.
Proof.
  induction l as [|z l IH]; simpl; intros Hnd Hx Hy Hf; [contradiction|].
  inversion Hnd as [|? ? Hnot Hnd']; subst.
  destruct Hx as [-> | Hx], Hy as [-> | Hy]; auto.
  - exfalso. apply Hnot. rewrite Hf. now apply in_map.
  - exfalso. apply Hnot. rewrite <- Hf. now apply in_map.
Qed.

(** X12: once the attendance of the selected date is fetched, the status the
    grid shows for a student is the status of the stored row of that student
    and date that the caller may read, and none when there is no such row;
    the uniqueness constraint leaves no second candidate. *)
Theorem X12_grid_shows_stored_status (d : db) (uid : session)
    (profile : Profile.t) (day : date) (s : TeacherDashboard.state)
    (sid : uuid) (st : attendance_status) :
  unique_attendance (public_attendance d) ->
  TeacherDashboard.getAttendanceStatus
    (fst (TeacherDashboard.update profile
            (TeacherDashboard.AttendanceFetched
               (Backend.answer None (Backend.select_attendance_on d uid day))) s))
    sid = Some st <->
  exists r, In r (public_attendance d) /\
            attendance.student_id r = sid /\ attendance.date r = day /\
            attendance.status r = st /\
            holds (attendance_select d uid r) = true.
Proof.
  intros Hu. cbn [Backend.answer TeacherDashboard.update error data fst or_empty].
  unfold TeacherDashboard.getAttendanceStatus, TeacherDashboard.setLoading,
    TeacherDashboard.setAttendance.
  cbn [TeacherDashboard.attendance].
  assert (Hmem : forall a,
    In a (filter (fun a => String.eqb (AttendanceRecord.student_id a) sid)
                 (Backend.select_attendance_on d uid day)) <->
    exists r, In r (public_attendance d) /\
              attendance.student_id r = sid /\ attendance.date r = day /\
              holds (attendance_select d uid r) = true /\
              a = AttendanceRecord.mk (attendance.student_id r) (attendance.date r)
                                      (attendance.status r)).
  { intros a. unfold Backend.select_attendance_on.
    rewrite filter_In, in_map_iff. split.
    - intros ((r & Ha & Hr) & Hs). apply filter_In in Hr.
      destruct Hr as (Hr & Hf). apply andb_true_iff in Hf.
      destruct Hf as (Hsel & Hd). apply String.eqb_eq in Hd, Hs.
      exists r. subst a. simpl in Hs. auto.
    - intros (r & Hr & Hs & Hd & Hsel & Ha). split.
      + exists r. split; [auto|]. apply filter_In. split; [assumption|].
        apply andb_true_iff. split; [assumption | now apply String.eqb_eq].
      + subst a. simpl. now apply String.eqb_eq. }
  destruct (filter _ (Backend.select_attendance_on d uid day)) as [|a l] eqn:Hf.
  - split; [discriminate|].
    intros (r & Hr & Hs & Hd & Hst & Hsel). exfalso.
    apply (Hmem (AttendanceRecord.mk (attendance.student_id r) (attendance.date r)
                                     (attendance.status r))).
    exists r. auto.
  - destruct (proj1 (Hmem a) (or_introl eq_refl))
      as (r0 & Hr0 & Hs0 & Hd0 & Hsel0 & Ha).
    split.
    + intros H. injection H as <-. exists r0. subst a. simpl. auto.
    + intros (r & Hr & Hs & Hd & Hst & Hsel). f_equal.
      assert (r0 = r).
      { apply (NoDup_map_inj attendance_key (public_attendance d)); auto.
        unfold attendance_key. congruence. }
      subst r0 a. simpl. assumption.
Qed.

Lemma X12_grid_shows_stored_status_witness :
  TeacherDashboard.getAttendanceStatus
    (fst (TeacherDashboard.update (Profile.mk "sam" "Sam" student (Some "class-a"))
            (TeacherDashboard.AttendanceFetched
               (Backend.answer None
                  (Backend.select_attendance_on school (Some "sam") "2024-01-01")))
            (TeacherDashboard.initial "2024-01-01")))
    "sam" = Some present <->
  exists r, In r (public_attendance school) /\
            attendance.student_id r = "sam" /\ attendance.date r = "2024-01-01" /\
            attendance.status r = present /\
            holds (attendance_select school (Some "sam") r) = true.
Proof.
  apply (X12_grid_shows_stored_status school (Some "sam")
           (Profile.mk "sam" "Sam" student (Some "class-a")) "2024-01-01"
           (TeacherDashboard.initial "2024-01-01") "sam" present).
  unfold unique_attendance. simpl. repeat constructor. simpl. tauto.
Defined.

(** X13: once the student's attendance is fetched, it is in state latest
    date first, in the order of the dates and not of their text; "Recent
    Attendance" shows its first ten records at most, and no record left out
    is of a later date than one shown. *)
Theorem X13_recent_attendance_is_the_latest (d : db) (uid : session) (sid : uuid)
    (profile : Profile.t) (s : StudentDashboard.state) :
  let s' := fst (StudentDashboard.update profile
                   (StudentDashboard.AttendanceFetched
                      (Backend.answer None (Backend.select_attendance_of d uid sid)))
                   s) in
  StronglySorted (fun a b => date_leb (Attendance.date b) (Attendance.date a) = true)
                 (StudentDashboard.attendance s') /\
  List.length (StudentDashboard.recent s') = Nat.min 10 (List.length (StudentDashboard.attendance s')) /\
  exists older,
    StudentDashboard.attendance s' = (StudentDashboard.recent s' ++ older)%list /\
    forall a b, In a (StudentDashboard.recent s') -> In b older ->
                date_leb (Attendance.date b) (Attendance.date a) = true.
Proof.
  intros s'.
  assert (Hs : StronglySorted
                 (fun a b => date_leb (Attendance.date b) (Attendance.date a) = true)
                 (StudentDashboard.attendance s')).
  { subst s'. cbn [Backend.answer StudentDashboard.update error data fst or_empty].
    unfold StudentDashboard.setLoading, StudentDashboard.setAttendance.
    cbn [StudentDashboard.attendance].
    unfold Backend.select_attendance_of. apply StronglySorted_map. simpl.
    apply Sorted_StronglySorted.
    - intros a b c Hab Hbc. now apply (date_leb_trans _ (attendance.date b)).
    - apply order_by_sorted. intros a b. apply date_leb_total. }
  split; [exact Hs|]. unfold StudentDashboard.recent.
  split; [apply length_firstn|].
  exists (skipn 10 (StudentDashboard.attendance s')).
  split; [symmetry; apply firstn_skipn|].
  apply StronglySorted_app_cross. now rewrite firstn_skipn.
Qed.

(** The order is that of the dates: the year 10000 is later than the year
    9999, though its text comes first. *)
Example date_order_is_not_text_order :
  date_leb "9999-12-31" "10000-01-01" = true /\
  date_leb "10000-01-01" "9999-12-31" = false /\
  String.leb "10000-01-01" "9999-12-31" = true /\
  date_leb "0044-03-15 BC" "0001-01-01" = true /\
  date_leb "2024-01-01" "infinity" = true.
Proof. repeat split. Qed.

End AttendanceViews.

(** ** Profiles under UPDATE *)

Section ProfileUpdates.
Import RLS Store System Sample.

Lemma profiles_target_own (uid : session) (where_ : option (profiles.row -> bool))
    (r : profiles.row) :
  profiles_target uid where_ r = true -> uid = Some (profiles.id r).
Proof.
  unfold profiles_target, profiles_update. intros H.
  apply andb_true_iff in H. destruct H as (H & _).
  apply holds_sql_eq in H. destruct H as (a & Ha & Hb). congruence.
Qed.

(** What an accepted UPDATE of profiles has passed: in particular the row
    written has the id of the row read, both being the caller's. *)
Lemma update_profiles_ok (uid : session) (s : profiles_set)
    (where_ : option (profiles.row -> bool)) (now : timestamptz) (d d' : db) :
  update_profiles uid s where_ now d = Ok d' ->
  d' = set_profiles d
         (map (fun r => if profiles_target uid where_ r
                        then update_updated_at_column now (apply_pset s r) else r)
              (public_profiles d)) /\
  forall r, In r (public_profiles d) -> profiles_target uid where_ r = true ->
            profiles.id (update_updated_at_column now (apply_pset s r))
            = profiles.id r /\
            profiles_fk d (update_updated_at_column now (apply_pset s r)) = true.
Proof.
  unfold update_profiles.
  match goal with
  | |- (if ?c then _ else _) = _ -> _ => destruct c eqn:Hrls; [discriminate|]
  end.
  match goal with
  | |- (if ?c then _ else _) = _ -> _ => destruct c eqn:Hfk; [discriminate|]
  end.
  intros H. injection H as <-. split; [reflexivity|].
  apply negb_false_iff in Hrls, Hfk. rewrite forallb_forall in Hrls, Hfk.
  intros r Hr Ht. split; [|apply Hfk, filter_In; auto].
  assert (Hnew : profiles_new_row_rls uid where_
                   (update_updated_at_column now (apply_pset s r)) = true)
    by (apply Hrls, filter_In; auto).
  unfold profiles_new_row_rls, profiles_update in Hnew.
  apply andb_true_iff in Hnew. destruct Hnew as (Hnew & _).
  apply holds_sql_eq in Hnew. destruct Hnew as (a & Ha & Hb).
  apply profiles_target_own in Ht. congruence.
Qed.

Lemma update_profiles_ids (uid : session) (s : profiles_set)
    (where_ : option (profiles.row -> bool)) (now : timestamptz) (d d' : db) :
  update_profiles uid s where_ now d = Ok d' ->
  map profiles.id (public_profiles d') = map profiles.id (public_profiles d).
Proof.
  intros Hup. apply update_profiles_ok in Hup. destruct Hup as (-> & Hchecks).
  simpl. rewrite map_map. apply map_ext_in. intros r Hr.
  destruct (profiles_target uid where_ r) eqn:Ht; [|reflexivity].
  now destruct (Hchecks r Hr Ht).
Qed.

(** X14: an accepted UPDATE of profiles, whatever columns it assigns, writes
    the caller's own row and no other: ids and order of the table are kept
    (the policy holds the id of the row written to the caller's), every row
    of another identity is as before, and a row written carries the caller's
    id and the time of the statement as updated_at, whatever value the
    statement assigned to it.  The other tables are as before. *)
Theorem X14_profile_update_is_self_only (uid : session) (s : profiles_set)
    (where_ : option (profiles.row -> bool)) (now : timestamptz) (d d' : db) :
  update_profiles uid s where_ now d = Ok d' ->
  map profiles.id (public_profiles d') = map profiles.id (public_profiles d) /\
  (forall p, In p (public_profiles d) -> uid <> Some (profiles.id p) ->
             In p (public_profiles d')) /\
  (forall p', In p' (public_profiles d') ->
     In p' (public_profiles d) \/
     (uid = Some (profiles.id p') /\ profiles.updated_at p' = now /\
      exists p, In p (public_profiles d) /\ profiles.id p = profiles.id p')) /\
  auth_users d' = auth_users d /\ public_classes d' = public_classes d /\
  public_posts d' = public_posts d /\ public_attendance d' = public_attendance d.
Proof.
  intros Hup. pose proof (update_profiles_ids _ _ _ _ _ _ Hup) as Hids.
  apply update_profiles_ok in Hup. destruct Hup as (-> & Hchecks). simpl in *.
  repeat split; auto.
  - intros p Hp Hne. apply in_map_iff. exists p. split; [|assumption].
    destruct (profiles_target uid where_ p) eqn:Ht; [|reflexivity].
    apply profiles_target_own in Ht. contradiction.
  - intros p' Hp'. apply in_map_iff in Hp'. destruct Hp' as (p & Heq & Hp).
    destruct (profiles_target uid where_ p) eqn:Ht; [|left; congruence].
    right. destruct (Hchecks p Hp Ht) as (Hid & _).
    apply profiles_target_own in Ht. subst p'.
    split; [simpl; rewrite Hid; exact Ht|]. split; [reflexivity|]. exists p. auto.
Qed.

Lemma X14_profile_update_is_self_only_witness :
  let d' := set_profiles school
              [tina; profiles.mk "sam" "Samuel" student (Some "class-a") 0 9; omar] in
  map profiles.id (public_profiles d') = map profiles.id (public_profiles school) /\
  (forall p, In p (public_profiles school) -> Some "sam" <> Some (profiles.id p) ->
             In p (public_profiles d')) /\
  (forall p', In p' (public_profiles d') ->
     In p' (public_profiles school) \/
     (Some "sam" = Some (profiles.id p') /\ profiles.updated_at p' = 9 /\
      exists p, In p (public_profiles school) /\ profiles.id p = profiles.id p')) /\
  auth_users d' = auth_users school /\ public_classes d' = public_classes school /\
  public_posts d' = public_posts school /\
  public_attendance d' = public_attendance school.
Proof.
  apply (X14_profile_update_is_self_only (Some "sam")
           (mk_profiles_set None (Some "Samuel") None None (Some 0) (Some 5))
           None 9 school).
  reflexivity.
Defined.

(** X15: the UPDATE policy of profiles looks at the id alone, so a caller
    with a profile, a student's included, can set their own role to teacher
    and their class to any existing class; from then on their inserts of
    posts into that class are accepted. *)
Theorem X15_caller_can_become_teacher (d : db) (P : profiles.row) (c : uuid)
    (now : timestamptz) :
  In P (public_profiles d) ->
  In c (map classes.id (public_classes d)) ->
  exists d',
    update_profiles (Some (profiles.id P))
                    (mk_pset None (Some teacher) (Some (Some c))) None now d = Ok d' /\
    In (profiles.mk (profiles.id P) (profiles.name P) teacher (Some c)
                    (profiles.created_at P) now)
       (public_profiles d') /\
    forall fresh now' title content,
      ~ In fresh (map posts.id (public_posts d)) ->
      insert_post (Some (profiles.id P)) fresh now' (profiles.id P) c title content d'
      = Ok (set_posts d' (public_posts d'
                          ++ [posts.mk fresh (profiles.id P) c title content now'])).
Proof.
  intros HP Hc.
  assert (Hup : update_profiles (Some (profiles.id P))
                  (mk_pset None (Some teacher) (Some (Some c))) None now d
                = Ok (set_profiles d
                        (map (fun r => if profiles_target (Some (profiles.id P)) None r
                                       then update_updated_at_column now
                                              (apply_pset (mk_pset None (Some teacher)
                                                                   (Some (Some c))) r)
                                       else r)
                             (public_profiles d)))).
  { unfold update_profiles.
    match goal with
    | |- (if negb ?c then _ else _) = _ =>
        assert (Hrls : c = true); [|rewrite Hrls; cbn [negb]]
    end.
    { apply forallb_forall. intros r Hr. apply filter_In in Hr.
      destruct Hr as (_ & Ht). apply profiles_target_own in Ht.
      unfold profiles_new_row_rls, profiles_update, update_updated_at_column,
        apply_pset, mk_pset.
      cbn [profiles.id set_profile_id assign].
      rewrite holds_sql_eq_some, andb_true_r.
      apply String.eqb_eq. congruence. }
    match goal with
    | |- (if negb ?c then _ else _) = _ =>
        assert (Hfk : c = true); [|rewrite Hfk; cbn [negb]]
    end.
    { apply forallb_forall. intros r _. unfold profiles_fk. simpl.
      now apply mem_In. }
    reflexivity. }
  eexists. split; [exact Hup|].
  set (P' := profiles.mk (profiles.id P) (profiles.name P) teacher (Some c)
                         (profiles.created_at P) now).
  assert (HP' : In P' (public_profiles
                         (set_profiles d
                            (map (fun r => if profiles_target (Some (profiles.id P)) None r
                                           then update_updated_at_column now
                                                  (apply_pset (mk_pset None (Some teacher)
                                                                       (Some (Some c))) r)
                                           else r)
                                 (public_profiles d))))).
  { simpl. apply in_map_iff. exists P. split; [|assumption].
    unfold profiles_target, profiles_update.
    rewrite holds_sql_eq_some, String.eqb_refl. reflexivity. }
  split; [exact HP'|].
  intros fresh now' title content Hfresh.
  apply (insert_post_accepts P' fresh now' c title content); auto.
Qed.

Lemma X15_caller_can_become_teacher_witness :
  exists d',
    update_profiles (Some "sam") (mk_pset None (Some teacher) (Some (Some "class-b")))
                    None 9 school = Ok d' /\
    In (profiles.mk "sam" "Sam" teacher (Some "class-b") 2 9) (public_profiles d') /\
    forall fresh now' title content,
      ~ In fresh (map posts.id (public_posts school)) ->
      insert_post (Some "sam") fresh now' "sam" "class-b" title content d'
      = Ok (set_posts d' (public_posts d'
                          ++ [posts.mk fresh "sam" "class-b" title content now'])).
Proof.
  apply (X15_caller_can_become_teacher school sam "class-b" 9).
  - simpl. auto.
  - simpl. auto.
Defined.

End ProfileUpdates.

(** ** The declared constraints under every statement *)

Section Constraints.
Import RLS Store System Sample.

Lemma NoDup_snoc {A : Type} (l : list A) (x : A) :
  NoDup l -> ~ In x l -> NoDup (l ++ [x]).
Proof.
  intros Hnd Hx. apply NoDup_app; [assumption | repeat constructor; simpl; tauto |].
  intros a Ha [<- | []]. contradiction.
Qed.

Lemma insert_auth_user_ok (now : timestamptz) (NEW : users.row) (d d' : db) :
  insert_auth_user now NEW d = Ok d' ->
  exists n r,
    ~ In (users.id NEW) (map users.id (auth_users d)) /\
    ~ In (users.id NEW) (map profiles.id (public_profiles d)) /\
    d' = mkdb (auth_users d ++ [NEW]) (public_classes d)
              (public_profiles d ++ [profiles.mk (users.id NEW) n r None now now])
              (public_posts d) (public_attendance d).
Proof.
  unfold insert_auth_user.
  destruct (mem (users.id NEW) (map users.id (auth_users d))) eqn:Hu; [discriminate|].
  unfold handle_new_user.
  destruct (cast_nullable _) as [r|e]; [|discriminate].
  unfold insert_profile.
  destruct (coalesce (json_get_text _ "name") _) as [n|]; [|discriminate].
  destruct (coalesce r (Some student)) as [r'|]; [|discriminate].
  cbn [public_profiles auth_users set_auth_users].
  destruct (mem (users.id NEW) (map profiles.id (public_profiles d))) eqn:Hp;
    [discriminate|].
  destruct (negb _); [discriminate|].
  intros H. injection H as <-. exists n, r'.
  split; [now apply mem_false|]. split; [now apply mem_false|]. reflexivity.
Qed.

Lemma insert_auth_user_consistent (now : timestamptz) (NEW : users.row) (d d' : db) :
  consistent d -> insert_auth_user now NEW d = Ok d' -> consistent d'.
Proof.
  intros [Hpku Hpkc Hpkp Hpkpo Hpka Huq Hfpu Hfpc Hfpt Hfpcl Hfas] H. apply insert_auth_user_ok in H.
  destruct H as (n & r & Hu & Hp & ->).
  constructor; try assumption.
  - unfold pk_users. simpl. rewrite map_app. now apply NoDup_snoc.
  - unfold pk_profiles. simpl. rewrite map_app. now apply NoDup_snoc.
  - intros p Hin. simpl in *. rewrite map_app. apply in_app_iff.
    apply in_app_iff in Hin. destruct Hin as [Hin | [<- | []]]; [left | right].
    + now apply Hfpu.
    + simpl. auto.
  - intros p c Hin Hc. simpl in *.
    apply in_app_iff in Hin. destruct Hin as [Hin | [<- | []]].
    + now apply (Hfpc p).
    + discriminate.
  - intros r0 Hin. simpl in *. rewrite map_app. apply in_app_iff. left.
    now apply Hfpt.
  - intros r0 Hin. simpl in *. rewrite map_app. apply in_app_iff. left.
    now apply Hfas.
Qed.

Lemma in_ids_filter {A : Type} (key : A -> string) (u : uuid) (l : list A) (k : string) :
  In k (map key l) -> k <> u ->
  In k (map key (filter (fun a => negb (String.eqb (key a) u)) l)).
Proof.
  intros Hin Hne. apply in_map_iff in Hin. destruct Hin as (a & <- & Ha).
  apply in_map, filter_In. split; [assumption|].
  now apply negb_true_iff, String.eqb_neq.
Qed.

Lemma delete_auth_user_consistent (u : uuid) (d d' : db) :
  consistent d -> delete_auth_user u d = Ok d' -> consistent d'.
Proof.
  intros [Hpku Hpkc Hpkp Hpkpo Hpka Huq Hfpu Hfpc Hfpt Hfpcl Hfas] H. unfold delete_auth_user in H.
  destruct (existsb _ (public_profiles d) && profile_referenced u d) eqn:Hblock;
    [discriminate|].
  injection H as <-.
  assert (Hfree : forall k, In k (map profiles.id (public_profiles d)) ->
                            profile_referenced u d = true -> k <> u).
  { intros k Hk Href ->. apply in_map_iff in Hk. destruct Hk as (p & Hid & Hp).
    assert (Hex : existsb (fun p => String.eqb (profiles.id p) u) (public_profiles d)
                  = true).
    { apply existsb_exists. exists p. split; [assumption | now apply String.eqb_eq]. }
    rewrite Hex, Href in Hblock. discriminate. }
  constructor; try assumption; simpl.
  - unfold pk_users. simpl. now apply NoDup_map_filter.
  - unfold pk_profiles. simpl. now apply NoDup_map_filter.
  - intros p Hin. simpl in *. apply filter_In in Hin. destruct Hin as (Hin & Hne).
    apply in_ids_filter; [now apply Hfpu|].
    now apply negb_true_iff, String.eqb_neq in Hne.
  - intros p c Hin Hc. simpl in *. apply filter_In in Hin.
    apply (Hfpc p); tauto.
  - intros r Hin. simpl in *. apply in_ids_filter; [now apply Hfpt|].
    intros Heq. apply (Hfree (posts.teacher_id r)); [now apply Hfpt | | exact Heq].
    unfold profile_referenced. apply orb_true_iff. left.
    apply existsb_exists. exists r. split; [assumption | now apply String.eqb_eq].
  - intros r Hin. simpl in *.
    apply in_ids_filter; [now apply Hfas|].
    intros Heq. apply (Hfree (attendance.student_id r)); [now apply Hfas | | exact Heq].
    unfold profile_referenced. apply orb_true_iff. right.
    apply existsb_exists. exists r. split; [assumption | now apply String.eqb_eq].
Qed.

Lemma insert_post_consistent (uid : session) (fresh : uuid) (now : timestamptz)
    (t c : uuid) (title content : text) (d d' : db) :
  consistent d -> insert_post uid fresh now t c title content d = Ok d' ->
  consistent d'.
Proof.
  intros [Hpku Hpkc Hpkp Hpkpo Hpka Huq Hfpu Hfpc Hfpt Hfpcl Hfas] H. apply insert_post_ok in H.
  destruct H as (-> & _ & Hfresh & Ht & Hc).
  constructor; try assumption; simpl.
  - unfold pk_posts. simpl. rewrite map_app. now apply NoDup_snoc.
  - intros r Hin. simpl in *. apply in_app_iff in Hin.
    destruct Hin as [Hin | [<- | []]]; [now apply Hfpt | assumption].
  - intros r Hin. simpl in *. apply in_app_iff in Hin.
    destruct Hin as [Hin | [<- | []]]; [now apply Hfpcl | assumption].
Qed.

Lemma update_posts_consistent (uid : session) (s : posts_set)
    (where_ : option (posts.row -> bool)) (d d' : db) :
  consistent d -> update_posts uid s where_ d = Ok d' -> consistent d'.
Proof.
  intros [Hpku Hpkc Hpkp Hpkpo Hpka Huq Hfpu Hfpc Hfpt Hfpcl Hfas] H.
  apply update_posts_ok in H. destruct H as (Hd' & Hpk' & Hchecks).
  assert (Hnew : forall r', In r' (public_posts d') ->
            In (posts.teacher_id r') (map profiles.id (public_profiles d)) /\
            In (posts.class_id r') (map classes.id (public_classes d))).
  { intros r' Hin. rewrite Hd' in Hin. simpl in Hin.
    apply in_map_iff in Hin. destruct Hin as (r & <- & Hr).
    destruct (posts_target d uid posts_update where_ r) eqn:Ht.
    - destruct (Hchecks r Hr Ht) as (_ & Hf).
      unfold posts_fk in Hf. apply andb_true_iff in Hf.
      destruct Hf as (H1 & H2). split; now apply mem_In.
    - split; [now apply Hfpt | now apply Hfpcl]. }
  subst d'. constructor; try assumption.
  - intros r Hin. now apply Hnew.
  - intros r Hin. now apply Hnew.
Qed.

Lemma delete_posts_consistent (uid : session)
    (where_ : option (posts.row -> bool)) (d d' : db) :
  consistent d -> delete_posts uid where_ d = Ok d' -> consistent d'.
Proof.
  intros [Hpku Hpkc Hpkp Hpkpo Hpka Huq Hfpu Hfpc Hfpt Hfpcl Hfas] H. unfold delete_posts in H. injection H as <-.
  constructor; try assumption; simpl.
  - unfold pk_posts. simpl. now apply NoDup_map_filter.
  - intros r Hin. simpl in *. apply filter_In in Hin. now apply Hfpt.
  - intros r Hin. simpl in *. apply filter_In in Hin. now apply Hfpcl.
Qed.

(** The checks an accepted upsert has passed. *)
Lemma upsert_attendance_checks (uid : session) (fresh : uuid) (now : timestamptz)
    (s : uuid) (dt : date) (st : attendance_status) (d d' : db) :
  upsert_attendance uid fresh now s dt st d = Ok d' ->
  In s (map profiles.id (public_profiles d)) /\
  (existsb (same_key s dt) (public_attendance d) = false ->
   ~ In fresh (map attendance.id (public_attendance d))).
Proof.
  unfold upsert_attendance.
  destruct (negb (holds (attendance_insert d uid _))); [discriminate|].
  match goal with
  | |- (if ?c then _ else _) = _ -> _ => destruct c; [discriminate|]
  end.
  destruct (negb (mem s _)) eqn:Hs; [discriminate|].
  match goal with
  | |- (if ?c then _ else _) = _ -> _ => destruct c eqn:Hpk; [discriminate|]
  end.
  intros _. split.
  - apply negb_false_iff in Hs. now apply mem_In.
  - intros Hex. rewrite filter_none in Hpk.
    + now apply mem_false.
    + intros r Hr. apply not_true_is_false. intros Hk.
      assert (existsb (same_key s dt) (public_attendance d) = true)
        by (apply existsb_exists; eauto).
      congruence.
Qed.

Lemma upsert_attendance_consistent (uid : session) (fresh : uuid) (now : timestamptz)
    (s : uuid) (dt : date) (st : attendance_status) (d d' : db) :
  consistent d -> upsert_attendance uid fresh now s dt st d = Ok d' ->
  consistent d'.
Proof.
  intros [Hpku Hpkc Hpkp Hpkpo Hpka Huq Hfpu Hfpc Hfpt Hfpcl Hfas] H.
  pose proof (upsert_attendance_checks _ _ _ _ _ _ _ _ H) as (Hs & Hfresh).
  apply upsert_attendance_ok in H. subst d'.
  constructor; try assumption; simpl.
  - unfold pk_attendance, upsert. simpl.
    destruct (existsb (same_key s dt) (public_attendance d)) eqn:Hex.
    + rewrite map_map. erewrite map_ext; [exact Hpka|].
      intros r. now destruct (same_key s dt r).
    + rewrite map_app. apply NoDup_snoc; auto.
  - now apply upsert_unique.
  - intros r Hin. simpl in *. unfold upsert in Hin.
    destruct (existsb (same_key s dt) (public_attendance d)).
    + apply in_map_iff in Hin. destruct Hin as (r0 & <- & Hr0).
      destruct (same_key s dt r0); exact (Hfas r0 Hr0).
    + apply in_app_iff in Hin.
      destruct Hin as [Hin | [<- | []]];
        [now apply Hfas | assumption].
Qed.

Lemma update_profiles_consistent (uid : session) (s : profiles_set)
    (where_ : option (profiles.row -> bool)) (now : timestamptz) (d d' : db) :
  consistent d -> update_profiles uid s where_ now d = Ok d' -> consistent d'.
Proof.
  intros [Hpku Hpkc Hpkp Hpkpo Hpka Huq Hfpu Hfpc Hfpt Hfpcl Hfas] H.
  pose proof (update_profiles_ids _ _ _ _ _ _ H) as Hids.
  apply update_profiles_ok in H. destruct H as (-> & Hchecks).
  simpl in Hids.
  constructor; try assumption; simpl.
  - unfold pk_profiles. simpl. now rewrite Hids.
  - intros p Hin. simpl in *.
    assert (Hp : In (profiles.id p) (map profiles.id (public_profiles d)))
      by (rewrite <- Hids; now apply in_map).
    apply in_map_iff in Hp. destruct Hp as (q & <- & Hq).
    now apply Hfpu.
  - intros p c Hin Hc. simpl in *.
    apply in_map_iff in Hin. destruct Hin as (r & Heq & Hr).
    destruct (profiles_target uid where_ r) eqn:Ht.
    + destruct (Hchecks r Hr Ht) as (_ & Hf). rewrite Heq in Hf.
      unfold profiles_fk in Hf. rewrite Hc in Hf. now apply mem_In.
    + subst p. now apply (Hfpc r).
  - intros r Hin. simpl in *. rewrite Hids. now apply Hfpt.
  - intros r Hin. simpl in *. rewrite Hids. now apply Hfas.
Qed.

Lemma exec_consistent (q : statement) (d d' : db) :
  consistent d -> exec q d = Ok d' -> consistent d'.
Proof.
  intros Hc. destruct q; simpl.
  - now apply insert_auth_user_consistent.
  - now apply delete_auth_user_consistent.
  - now apply insert_post_consistent.
  - now apply update_posts_consistent.
  - now apply delete_posts_consistent.
  - now apply upsert_attendance_consistent.
  - now apply update_profiles_consistent.
Qed.

Lemma seeded_consistent : consistent seeded.
Proof.
  constructor; unfold pk_users, pk_classes, pk_profiles, pk_posts, pk_attendance,
    unique_attendance, fk_profiles_users, fk_profiles_class, fk_posts_teacher,
    fk_posts_class, fk_attendance_student; simpl;
    try (repeat constructor; simpl; intuition discriminate);
    try (intros; contradiction).
Qed.

(** X16: the statements of the store keep the declared constraints: from a
    database that satisfies the primary keys, the uniqueness of (student_id,
    date) and the foreign keys, whatever statements the callers send, in
    whatever order, accepted or rejected, the database satisfies them still;
    so does every database reached from the seeded classes. *)
Theorem X16_statements_keep_constraints (qs : list statement) (d : db) :
  consistent d -> consistent (exec_all qs d).
Proof.
  revert d. induction qs as [|q qs IH]; intros d Hc; simpl; [assumption|].
  unfold exec_all in *. simpl. apply IH.
  destruct (exec q d) as [d'|e] eqn:He; [|assumption].
  now apply (exec_consistent q d).
Qed.

Lemma X16_statements_keep_constraints_witness :
  consistent
    (exec_all
       [Insert_auth_user 1 (users.mk "tina" (Some "tina@school.test")
                                     [("name", "Tina"); ("role", "teacher")]);
        Update_profiles (Some "tina") (mk_pset None None (Some (Some "class-a"))) None 2;
        Insert_post (Some "tina") "post-1" 3 "tina" "class-a" "Welcome" "First day";
        Upsert_attendance (Some "tina") "att-1" 4 "tina" "2024-01-01" present;
        Delete_auth_user "tina"]
       seeded).
Proof.
  apply (X16_statements_keep_constraints _ seeded).
  apply seeded_consistent.
Defined.

End Constraints.

(** ** Class posts, stale dates, anonymous callers and sign-up metadata *)

Section Remaining.
Import RLS Store System Sample.

Lemma in_select_class_posts (d : db) (uid : session) (cp : ClassPost.t) :
  In cp (Backend.select_class_posts d uid) <->
  exists r q, In r (public_posts d) /\ In q (public_profiles d) /\
    uid = Some (profiles.id q) /\ profiles.class_id q = Some (posts.class_id r) /\
    cp = ClassPost.mk (posts.id r) (posts.title r) (posts.content r)
                      (posts.created_at r)
                      (Backend.embedded_author d uid (posts.teacher_id r)).
Proof.
  unfold Backend.select_class_posts. rewrite in_map_iff. split.
  - intros (r & Hcp & Hr). apply in_order_by, filter_In in Hr.
    destruct Hr as (Hr & Hsel). apply posts_select_iff in Hsel.
    destruct Hsel as (q & Hq & Hu & Hc). exists r, q. auto.
  - intros (r & q & Hr & Hq & Hu & Hc & Hcp). exists r. split; [auto|].
    apply in_order_by, filter_In. split; [assumption|].
    apply posts_select_iff. exists q. auto.
Qed.

(** X17: "Class Posts" is ordered newest first and lists exactly the posts
    of the class of the caller's profile, whoever wrote them; a caller whose
    profile has no class, or who has no profile, gets no post. *)
Theorem X17_class_posts_of_own_class (d : db) (uid : session) :
  StronglySorted (fun a b => ClassPost.created_at b <= ClassPost.created_at a)
                 (Backend.select_class_posts d uid) /\
  (forall cp, In cp (Backend.select_class_posts d uid) <->
     exists r q, In r (public_posts d) /\ In q (public_profiles d) /\
       uid = Some (profiles.id q) /\ profiles.class_id q = Some (posts.class_id r) /\
       cp = ClassPost.mk (posts.id r) (posts.title r) (posts.content r)
                         (posts.created_at r)
                         (Backend.embedded_author d uid (posts.teacher_id r))) /\
  ((forall q, In q (public_profiles d) -> uid = Some (profiles.id q) ->
              profiles.class_id q = None) ->
   Backend.select_class_posts d uid = []).
Proof.
  split; [|split].
  - unfold Backend.select_class_posts.
    apply StronglySorted_map. simpl. apply (order_by_created_at_desc posts.created_at).
  - apply in_select_class_posts.
  - intros Hnone.
    destruct (Backend.select_class_posts d uid) as [|cp l] eqn:E; [reflexivity|].
    assert (Hin : In cp (Backend.select_class_posts d uid))
      by (rewrite E; simpl; auto).
    apply in_select_class_posts in Hin.
    destruct Hin as (r & q & _ & Hq & Hu & Hc & _).
    rewrite (Hnone q Hq Hu) in Hc. discriminate.
Qed.


Lemma anonymous_reads_no_post (d : db) (r : posts.row) :
  holds (posts_select d None r) = false.
Proof.
  apply not_true_is_false. intros E. apply posts_select_iff in E.
  destruct E as (p & _ & Hu & _). discriminate.
Qed.

Lemma anonymous_reads_no_attendance (d : db) (r : attendance.row) :
  holds (attendance_select d None r) = false.
Proof.
  unfold attendance_select. rewrite holds_tv_or. apply orb_false_iff. split.
  - reflexivity.
  - apply not_true_is_false. intros E. apply attendance_teacher_iff in E.
    destruct E as (Hu & _). discriminate.
Qed.

Lemma map_untouched {A : Type} (g : A -> bool) (f : A -> A) (l : list A) :
  (forall r, g r = false) -> map (fun r => if g r then f r else r) l = l.
Proof.
  intros Hg. induction l as [|x l IH]; simpl; [reflexivity|].
  now rewrite Hg, IH.
Qed.

(** X19: a session without identity (auth.uid() NULL) reads no row of any
    table through the dashboards' queries, cannot insert a post or mark
    attendance, and its UPDATE and DELETE statements are accepted and change
    no row. *)
Theorem X19_anonymous_reads_and_writes_nothing (d : db) :
  Backend.select_classes d None = [] /\
  Backend.select_class_posts d None = [] /\
  (forall t, Backend.select_own_posts d None t = []) /\
  (forall c, Backend.select_students d None c = []) /\
  (forall day, Backend.select_attendance_on d None day = []) /\
  (forall s, Backend.select_attendance_of d None s = []) /\
  (forall fresh now t c title content,
     insert_post None fresh now t c title content d = Err row_security_violation) /\
  (forall fresh now s dt st,
     upsert_attendance None fresh now s dt st d = Err row_security_violation) /\
  (forall s w d', update_posts None s w d = Ok d' -> d' = d) /\
  (forall w d', delete_posts None w d = Ok d' -> d' = d) /\
  (forall s w now d', update_profiles None s w now d = Ok d' -> d' = d).
Proof.
  repeat split.
  - unfold Backend.select_classes. apply filter_none. intros c _.
    apply not_true_is_false. intros E. apply classes_select_iff in E.
    destruct E as (p & _ & Hu & _). discriminate.
  - unfold Backend.select_class_posts. rewrite filter_none; [reflexivity|].
    intros r _. apply anonymous_reads_no_post.
  - intros t. unfold Backend.select_own_posts. rewrite filter_none; [reflexivity|].
    intros r _. now rewrite anonymous_reads_no_post.
  - intros c. unfold Backend.select_students.
    now rewrite from_profiles_anonymous.
  - intros day. unfold Backend.select_attendance_on.
    rewrite filter_none; [reflexivity|].
    intros r _. now rewrite anonymous_reads_no_attendance.
  - intros s. unfold Backend.select_attendance_of.
    rewrite filter_none; [reflexivity|].
    intros r _. now rewrite anonymous_reads_no_attendance.
  - intros fresh now t c title content. unfold insert_post.
    assert (Hf : holds (posts_insert d None (posts.mk fresh t c title content now))
                 = false).
    { apply not_true_is_false. intros E. apply posts_insert_iff in E.
      destruct E as (Hu & _). discriminate. }
    now rewrite Hf.
  - intros fresh now s dt st. unfold upsert_attendance.
    assert (Hf : holds (attendance_insert d None (attendance.mk fresh s dt st now))
                 = false).
    { apply not_true_is_false. intros E. apply attendance_teacher_iff in E.
      destruct E as (Hu & _). discriminate. }
    now rewrite Hf.
  - intros s w d' H. apply update_posts_ok in H. destruct H as (-> & _).
    rewrite (map_untouched (posts_target d None posts_update w) (apply_set s))
      by (intros; reflexivity).
    now destruct d.
  - intros w d' H. unfold delete_posts in H. injection H as <-.
    rewrite filter_true. now destruct d.
  - intros s w now d' H. unfold update_profiles in H.
    rewrite (filter_none _ (public_profiles d)) in H by (intros; reflexivity).
    cbn [forallb negb] in H. injection H as <-.
    rewrite (map_untouched (profiles_target None w)
               (fun r => update_updated_at_column now (apply_pset s r)))
      by (intros; reflexivity).
    now destruct d.
Qed.

(** X20: what a sign-up puts in its metadata is taken as it is: a new
    identity with a name and the role teacher in its metadata gets exactly
    one profile row, with that name whatever its email, with role teacher,
    and with no class. *)
Theorem X20_signup_metadata_is_taken (d : db) (now : timestamptz)
    (NEW : users.row) (n : text) :
  fk_profiles_users d ->
  ~ In (users.id NEW) (map users.id (auth_users d)) ->
  json_get_text (users.raw_user_meta_data NEW) "name" = Some n ->
  json_get_text (users.raw_user_meta_data NEW) "role" = Some "teacher" ->
  insert_auth_user now NEW d
  = Ok (mkdb (auth_users d ++ [NEW]) (public_classes d)
             (public_profiles d ++ [profiles.mk (users.id NEW) n teacher None now now])
             (public_posts d) (public_attendance d)).
Proof.
  intros Hfk Hnew Hname Hrole.
  assert (Hfresh : ~ In (users.id NEW) (map profiles.id (public_profiles d))).
  { intros Hin. apply in_map_iff in Hin. destruct Hin as (q & Hid & Hq).
    apply Hnew. rewrite <- Hid. now apply Hfk. }
  unfold insert_auth_user. rewrite (proj2 (mem_false _ _) Hnew).
  unfold handle_new_user. rewrite Hrole, Hname. cbn [cast_nullable cast_user_role].
  cbn [String.eqb Ascii.eqb Bool.eqb coalesce].
  unfold insert_profile. cbn [public_profiles auth_users set_auth_users].
  rewrite (proj2 (mem_false _ _) Hfresh).
  assert (Hm : mem (users.id NEW) (map users.id (auth_users d ++ [NEW])) = true).
  { apply mem_In. rewrite map_app, in_app_iff. right. simpl. auto. }
  rewrite Hm. reflexivity.
Qed.

Lemma X20_signup_metadata_is_taken_witness :
  insert_auth_user 9
    (users.mk "u2" (Some "u2@school.test") [("name", "Una"); ("role", "teacher")])
    seeded
  = Ok (mkdb [users.mk "u2" (Some "u2@school.test") [("name", "Una"); ("role", "teacher")]]
             (public_classes seeded)
             [profiles.mk "u2" "Una" teacher None 9 9]
             [] []).
Proof.
  apply (X20_signup_metadata_is_taken seeded 9
           (users.mk "u2" (Some "u2@school.test") [("name", "Una"); ("role", "teacher")])
           "Una").
  - intros p [].
  - simpl. tauto.
  - reflexivity.
  - reflexivity.
Defined.

End Remaining.
